(** * MLX90642 32x24 IR array driver: a shallow embedding of MLX90642.cpp

    The driver talks to the sensor through the Arduino [Wire] object.  The
    bus itself is an external collaborator, so it is kept abstract: a
    [Transport] answers every transmission with a status byte and every
    read request with the bytes the device delivers.  The [Wire] buffering
    on top of it, the driver's function-static [lastProgress], and a
    chronological trace of everything that reached the bus are threaded
    through a small state monad.

    Machine integers are [Z] with their wrap-around written out, floats are
    IEEE-754 binary32 values ([spec_float] at precision 24), text is a list
    of characters. *)

From Stdlib Require Import ZArith Lia List Bool Ascii String DecimalString.
From Stdlib Require Import Floats.SpecFloat.
From stdpp Require Import base list gmap.

Local Open Scope Z_scope.

(** ** Machine integers *)

Module Int.

Definition to_u8 (x : Z) : Z := x mod 256.
Definition to_u16 (x : Z) : Z := x mod 65536.

(** [(int16_t) x]: keep the low 16 bits, read them in two's complement. *)
Definition to_i16 (x : Z) : Z :=
  let u := x mod 65536 in
  if u <? 32768 then u else u - 65536.

End Int.

Import Int.

(** ** Constants of MLX90642.h *)

Definition MLX90642_ADDR : Z := 0x66.
Definition NUM_PIXELS : Z := 768.
Definition FRAME_ADDR : Z := 0x342C.
Definition FRAME_BUFFER_SIZE : Z := 6000.

(** ** The bus *)

(** What an observer of the bus (a mock transport) sees, in order. *)
Inductive BusEvent : Type :=
| EvTransmit (addr : Z) (bytes : list Z) (sendStop : bool) (status : Z)
| EvRequest (addr : Z) (quantity : Z) (received : list Z)
| EvDelay (ms : Z).

(** The transport capability required from the environment: it completes a
    queued transmission with a status (0 is success) and serves a read
    request with the bytes the device sends back. *)
Class Transport (D : Type) : Type := {
  transmit : D -> Z -> list Z -> bool -> Z * D;
  request : D -> Z -> Z -> list Z * D
}.

Section Driver.

Context {D : Type} `{Transport D}.

(** [Wire]'s transmit and receive buffers around the device, the driver's
    [static uint16_t lastProgress], and the trace. *)
Record Machine : Type := mkMachine {
  device : D;
  txAddress : Z;
  txBuffer : list Z;
  rxBuffer : list Z;
  lastProgress : Z;
  trace : list BusEvent
}.

(** Program start: empty buffers, [lastProgress = 0], nothing on the bus. *)
Definition boot (d : D) : Machine := mkMachine d 0 [] [] 0 [].

Definition M (A : Type) : Type := Machine -> A * Machine.

Definition ret {A} (a : A) : M A := fun m => (a, m).

Definition bind {A B} (c : M A) (k : A -> M B) : M B :=
  fun m => let (a, m') := c m in k a m'.

Definition result {A} (r : A * Machine) : A := fst r.
Definition final {A} (r : A * Machine) : Machine := snd r.

End Driver.

Arguments Machine D : clear implicits.
Arguments M D A : clear implicits.

Notation "x <- c ;; k" := (bind c (fun x => k))
  (at level 100, c at next level, right associativity).
Notation "c ;;; k" := (bind c (fun _ => k))
  (at level 100, right associativity).

Section Wire.

Context {D : Type} `{Transport D}.

Definition beginTransmission (addr : Z) : M D unit := fun m =>
  (tt, mkMachine (device m) addr [] (rxBuffer m) (lastProgress m) (trace m)).

(** [Wire.write(int)] queues [(uint8_t) n]. *)
Definition write (n : Z) : M D unit := fun m =>
  (tt, mkMachine (device m) (txAddress m) (txBuffer m ++ [to_u8 n])
         (rxBuffer m) (lastProgress m) (trace m)).

(** [uint8_t endTransmission(bool sendStop)]. *)
Definition endTransmission (sendStop : bool) : M D Z := fun m =>
  let (st, d) := transmit (device m) (txAddress m) (txBuffer m) sendStop in
  let st8 := to_u8 st in
  (st8, mkMachine d (txAddress m) [] (rxBuffer m) (lastProgress m)
          (trace m ++ [EvTransmit (txAddress m) (txBuffer m) sendStop st8])).

(** [requestFrom(addr, quantity)]: at most [quantity] bytes are kept. *)
Definition requestFrom (addr quantity : Z) : M D Z := fun m =>
  let (bs, d) := request (device m) addr quantity in
  let rx := take (Z.to_nat quantity) (map to_u8 bs) in
  (Z.of_nat (length rx),
   mkMachine d (txAddress m) (txBuffer m) rx (lastProgress m)
     (trace m ++ [EvRequest addr quantity rx])).

Definition available : M D Z := fun m =>
  (Z.of_nat (length (rxBuffer m)), m).

(** [int read()]: the next received byte, or -1 when there is none. *)
Definition read : M D Z := fun m =>
  match rxBuffer m with
  | [] => (-1, m)
  | b :: rest =>
      (b, mkMachine (device m) (txAddress m) (txBuffer m) rest
            (lastProgress m) (trace m))
  end.

Definition delay (ms : Z) : M D unit := fun m =>
  (tt, mkMachine (device m) (txAddress m) (txBuffer m) (rxBuffer m)
         (lastProgress m) (trace m ++ [EvDelay ms])).

Definition get_lastProgress : M D Z := fun m => (lastProgress m, m).

Definition set_lastProgress (v : Z) : M D unit := fun m =>
  (tt, mkMachine (device m) (txAddress m) (txBuffer m) (rxBuffer m)
         v (trace m)).

End Wire.

(** ** MLX90642.cpp *)

Section MLX90642.

Context {D : Type} `{Transport D}.

(** [uint16_t readAddr_unsigned(const uint16_t readByte)] *)
Definition readAddr_unsigned (readByte : Z) : M D Z :=
  beginTransmission MLX90642_ADDR ;;;
  write (Z.shiftr readByte 8) ;;;
  write (Z.land readByte 0xFF) ;;;
  st <- endTransmission false ;;
  if negb (st =? 0) then ret 0xFFFF else
  requestFrom MLX90642_ADDR 2 ;;;
  n <- available ;;
  if n <? 2 then ret 0xFFFF else
  hi <- read ;;
  lo <- read ;;
  let hi := to_u8 hi in
  let lo := to_u8 lo in
  ret (to_u16 (Z.lor (to_u16 (Z.shiftl hi 8)) lo)).

(** [int16_t readAddr_signed(const uint16_t readByte)] *)
Definition readAddr_signed (readByte : Z) : M D Z :=
  beginTransmission MLX90642_ADDR ;;;
  write (Z.shiftr readByte 8) ;;;
  write (Z.land readByte 0xFF) ;;;
  st <- endTransmission false ;;
  if negb (st =? 0) then ret (to_i16 0xFFFF) else
  requestFrom MLX90642_ADDR 2 ;;;
  n <- available ;;
  if n <? 2 then ret (to_i16 0xFFFF) else
  hi <- read ;;
  lo <- read ;;
  let hi := to_u8 hi in
  let lo := to_u8 lo in
  ret (to_i16 (Z.lor (Z.shiftl hi 8) lo)).

(** [bool isNewDataAvailable()] *)
Definition isNewDataAvailable : M D bool :=
  progress <- readAddr_unsigned 0x3C10 ;;
  last <- get_lastProgress ;;
  let newFrame := progress <? last in
  set_lastProgress progress ;;;
  ret newFrame.

(** [uint16_t pix_addr(uint16_t pxl)] *)
Definition pix_addr (pxl : Z) : Z :=
  if pxl >=? NUM_PIXELS then 0 else to_u16 (FRAME_ADDR + pxl * 2).

(** [bool writeEEPROM(uint16_t eepromAddr, uint16_t newValue)] *)
Definition writeEEPROM (eepromAddr newValue : Z) : M D bool :=
  beginTransmission MLX90642_ADDR ;;;
  write 0x3A ;;;
  write 0x2E ;;;
  write (Z.shiftr eepromAddr 8) ;;;
  write (Z.land eepromAddr 0xFF) ;;;
  write (Z.shiftr newValue 8) ;;;
  write (Z.land newValue 0xFF) ;;;
  st <- endTransmission true ;;
  if negb (st =? 0) then ret false else
  delay 10 ;;;
  ret true.

(** [bool setRefreshRate(uint8_t rate_hz)] *)
Definition setRefreshRate (rate_hz : Z) : M D bool :=
  if (rate_hz <? 2) || (rate_hz >? 5) then ret false else
  ctrl <- readAddr_unsigned 0x11F0 ;;
  if ctrl =? 0xFFFF then ret false else
  let ctrl := to_u16 (Z.land ctrl (Z.lnot 7)) in
  let ctrl := to_u16 (Z.lor ctrl (to_u16 rate_hz)) in
  ok <- writeEEPROM 0x11F0 ctrl ;;
  if negb ok then ret false else
  delay 20 ;;;
  ctrl2 <- readAddr_unsigned 0x11F0 ;;
  if ctrl2 =? 0xFFFF then ret false else
  ret (Z.land ctrl2 0x07 =? rate_hz).

End MLX90642.

(** The word [setRefreshRate] hands to [writeEEPROM], as its two
    assignments to [ctrl] compute it. *)
Definition with_rate (ctrl rate_hz : Z) : Z :=
  to_u16 (Z.lor (to_u16 (Z.land ctrl (Z.lnot 7))) (to_u16 rate_hz)).

(** ** Floats: IEEE-754 binary32, the ESP32's [float] *)

Module F32.

Definition prec : Z := 24.
Definition emax : Z := 128.

(** Conversion of an [int] to [float], round to nearest even. *)
Definition of_int (n : Z) : spec_float := binary_normalize prec emax n 0 false.

Definition div (x y : spec_float) : spec_float := SFdiv prec emax x y.

(** The float nearest to the decimal literal [n / 10^k]. *)
Definition literal (n : Z) (k : nat) : spec_float :=
  div (of_int n) (of_int (10 ^ Z.of_nat k)).

(** The value of [x] is exactly the fraction [n / d]. *)
Definition represents (x : spec_float) (n d : Z) : bool :=
  match x with
  | S754_zero _ => n =? 0
  | S754_finite s m e =>
      let v := if s then Z.neg m else Z.pos m in
      if 0 <=? e then v * 2 ^ e * d =? n else v * d =? n * 2 ^ (- e)
  | _ => false
  end.

(** [x] is a canonical binary32 number within half a unit in its last
    place of the fraction [n / d] (with [0 < d]): [n / d] rounded to
    nearest. *)
Definition rounds (x : spec_float) (n d : Z) : bool :=
  match x with
  | S754_zero _ => n =? 0
  | S754_finite s m e =>
      let v := if s then Z.neg m else Z.pos m in
      valid_binary prec emax x && (0 <? d) &&
      if 0 <=? e then 2 * Z.abs (v * 2 ^ e * d - n) <=? 2 ^ e * d
      else 2 * Z.abs (v * d - n * 2 ^ (- e)) <=? d
  | _ => false
  end.

End F32.

(** [raw / 50.0f] *)
Definition pixel_temp (raw : Z) : spec_float :=
  F32.div (F32.of_int raw) (F32.of_int 50).

Section Temperatures.

Context {D : Type} `{Transport D}.

(** [float readTa()] *)
Definition readTa : M D spec_float :=
  raw <- readAddr_signed 0x3A2C ;;
  let Ta_calc := F32.div (F32.of_int raw) (F32.of_int 100) in
  ret Ta_calc.

(** [Tram[i] = v]; writing outside the caller's array is undefined
    behaviour, [None] here. *)
Definition store {A} (a : list A) (i : Z) (v : A) : option (list A) :=
  if (0 <=? i) && (i <? Z.of_nat (length a))
  then Some (<[Z.to_nat i := v]> a) else None.

(** The [for] loop of [readTempC], [todo] iterations from index [i]. *)
Fixpoint readTempC_from (todo : nat) (i : Z) (Tram : list spec_float)
  : M D (option (list spec_float)) :=
  match todo with
  | O => ret (Some Tram)
  | S todo' =>
      raw <- readAddr_signed (pix_addr (to_u16 i)) ;;
      match store Tram i (pixel_temp raw) with
      | None => ret None
      | Some Tram' => readTempC_from todo' (i + 1) Tram'
      end
  end.

(** [void readTempC(float *Tram)] *)
Definition readTempC (Tram : list spec_float)
  : M D (option (list spec_float)) :=
  readTempC_from (Z.to_nat NUM_PIXELS) 0 Tram.

End Temperatures.

(** ** Frame output *)

Definition NUL : ascii := Ascii.zero.
Definition LF : ascii := ascii_of_nat 10.

Section PrintFrame.

(** The C library's rendering of a [float] under ["%.1f"]. *)
Variable format_1f : spec_float -> list ascii.

(** The text of one pixel. *)
Definition field (x : spec_float) : list ascii := "," %char :: format_1f x.

(** [dst[pos..] = cs], for a run that fits. *)
Definition blit (dst : list ascii) (pos : nat) (cs : list ascii) : list ascii :=
  take pos dst ++ cs ++ drop (pos + length cs) dst.

(** [snprintf(&buf[pos], size, ",%.1f", x)]: at most [size - 1] characters
    and the terminating NUL are written; the length of the whole text is
    returned.  The destination must lie in the array. *)
Definition snprintf (buf : list ascii) (pos size : Z) (x : spec_float)
  : option (Z * list ascii) :=
  let text := field x in
  if (0 <=? pos) && (0 <? size) && (pos + size <=? Z.of_nat (length buf))
  then Some (Z.of_nat (length text),
             blit buf (Z.to_nat pos) (take (Z.to_nat (size - 1)) text ++ [NUL]))
  else None.

(** The [for] loop of [printFrame]; a [break] returns. *)
Fixpoint printFrame_from (todo : nat) (i index : Z) (frameBuffer : list ascii)
  (Tdat : list spec_float) : option (Z * list ascii) :=
  match todo with
  | O => Some (index, frameBuffer)
  | S todo' =>
      x ← Tdat !! Z.to_nat i;
      '(written, frameBuffer) ← snprintf frameBuffer index (FRAME_BUFFER_SIZE - index) x;
      if written <=? 0 then Some (index, frameBuffer) else
      let index := index + written in
      if index >=? FRAME_BUFFER_SIZE - 10 then Some (index, frameBuffer) else
      printFrame_from todo' (i + 1) index frameBuffer Tdat
  end.

(** [void printFrame(float *Tdat)]: the new [frameBuffer] and the bytes
    handed to [Serial.write]. *)
Definition printFrame (frameBuffer : list ascii) (Tdat : list spec_float)
  : option (list ascii * list ascii) :=
  '(index, frameBuffer) ← printFrame_from (Z.to_nat NUM_PIXELS) 0 0 frameBuffer Tdat;
  frameBuffer ← store frameBuffer index LF;
  let index := index + 1 in
  frameBuffer ← store frameBuffer index NUL;
  Some (frameBuffer, take (Z.to_nat index) frameBuffer).

End PrintFrame.

(** ** A C library for the examples

    ["%.1f"] prints the decimal with one fractional digit nearest to the
    exact value of its argument, ties to even. *)

Module Libc.

Definition decimal (n : Z) : list ascii :=
  list_ascii_of_string (NilZero.string_of_uint (N.to_uint (Z.to_N n))).

(** [|m * 2^e| * 10] rounded to an integer, ties to even. *)
Definition tenths (m : positive) (e : Z) : Z :=
  if 0 <=? e then 10 * Z.pos m * 2 ^ e
  else
    let den := 2 ^ (- e) in
    let q := (10 * Z.pos m) / den in
    let r := (10 * Z.pos m) mod den in
    match 2 * r ?= den with
    | Lt => q
    | Gt => q + 1
    | Eq => if Z.even q then q else q + 1
    end.

Definition sign (s : bool) : list ascii :=
  if s then ["-" %char] else [].

Definition format_1f (x : spec_float) : list ascii :=
  match x with
  | S754_zero s => sign s ++ list_ascii_of_string "0.0"
  | S754_infinity s => sign s ++ list_ascii_of_string "inf"
  | S754_nan => list_ascii_of_string "nan"
  | S754_finite s m e =>
      let t := tenths m e in
      sign s ++ decimal (t / 10) ++ "." %char :: decimal (t mod 10)
  end.

End Libc.

(** ** A scripted mock transport

    It answers the transmissions with the statuses of its first list and the
    read requests with the byte strings of its second list, in order; an
    exhausted script answers a bus error (status 4) and no bytes. *)

Record Mock : Type := mkMock {
  statuses : list Z;
  replies : list (list Z)
}.

#[export] Instance Mock_transport : Transport Mock := {
  transmit d _ _ _ :=
    match statuses d with
    | [] => (4, d)
    | s :: rest => (s, mkMock rest (replies d))
    end;
  request d _ _ :=
    match replies d with
    | [] => ([], d)
    | r :: rest => (r, mkMock (statuses d) rest)
    end
}.

(** * The specification's side

    The words of the specification as definitions of their own, to compare
    the program with: what one exchange on the bus looks like, what a
    verified rate change does, how wraps are detected, what a printed line
    is. *)

(** The two bytes of a word as they are queued, most significant first. *)
Definition word_bytes (w : Z) : list Z :=
  [to_u8 (Z.shiftr w 8); to_u8 (Z.land w 0xFF)].

(** The address phase: the register address, bus not released. *)
Definition addr_phase (a st : Z) : BusEvent :=
  EvTransmit MLX90642_ADDR (word_bytes a) false st.

(** The configuration command: opcode, sub-opcode, address, data, bus
    released. *)
Definition eeprom_write (a v st : Z) : BusEvent :=
  EvTransmit MLX90642_ADDR ([0x3A; 0x2E] ++ word_bytes a ++ word_bytes v) true st.

Definition is_eeprom_write (e : BusEvent) : bool :=
  match e with
  | EvTransmit _ [op; sub; _; _; _; _] _ _ => (op =? 0x3A) && (sub =? 0x2E)
  | _ => false
  end.

(** The register read as the specification words it: the bus events of one
    exchange and the unsigned word it yields. *)
Inductive spec_read (a : Z) : list BusEvent -> Z -> Prop :=
| read_addr_failed st :
    st <> 0 ->
    spec_read a [addr_phase a st] 0xFFFF
| read_short rx :
    (length rx < 2)%nat ->
    spec_read a [addr_phase a 0; EvRequest MLX90642_ADDR 2 rx] 0xFFFF
| read_word hi lo :
    0 <= hi < 256 -> 0 <= lo < 256 ->
    spec_read a [addr_phase a 0; EvRequest MLX90642_ADDR 2 [hi; lo]]
      (hi * 256 + lo).

(** The exchange failed: the address phase was not acknowledged with
    success, or fewer than two bytes came back. *)
Definition read_failed (evs : list BusEvent) : bool :=
  match evs with
  | [EvTransmit _ _ _ st] => negb (st =? 0)
  | [EvTransmit _ _ _ st; EvRequest _ _ rx] =>
      negb (st =? 0) || (Z.of_nat (length rx) <? 2)
  | _ => true
  end.

(** The events a computation added to the trace. *)
Definition events {D A} (m : Machine D) (r : A * Machine D) : list BusEvent :=
  drop (length (trace m)) (trace (final r)).

(** The word to write as the specification words it: the low three bits of
    the word read are cleared, the rate code is ORed in. *)
Definition spec_updated (ctrl rateCode : Z) : Z :=
  Z.lor (Z.ldiff ctrl 0x07) rateCode.

(** The read-modify-write-verify sequence as the specification words it:
    the bus events of a call with a valid rate code, and its verdict. *)
Inductive spec_setRefreshRate (rateCode : Z) : list BusEvent -> bool -> Prop :=
| rate_read_failed evs :
    spec_read 0x11F0 evs 0xFFFF ->
    spec_setRefreshRate rateCode evs false
| rate_write_failed evs ctrl st :
    spec_read 0x11F0 evs ctrl -> ctrl <> 0xFFFF ->
    st <> 0 ->
    spec_setRefreshRate rateCode
      (evs ++ [eeprom_write 0x11F0 (spec_updated ctrl rateCode) st]) false
| rate_verify_failed evs ctrl evs' :
    spec_read 0x11F0 evs ctrl -> ctrl <> 0xFFFF ->
    spec_read 0x11F0 evs' 0xFFFF ->
    spec_setRefreshRate rateCode
      (evs ++ [eeprom_write 0x11F0 (spec_updated ctrl rateCode) 0;
               EvDelay 10; EvDelay 20] ++ evs') false
| rate_verified evs ctrl evs' ctrl2 :
    spec_read 0x11F0 evs ctrl -> ctrl <> 0xFFFF ->
    spec_read 0x11F0 evs' ctrl2 -> ctrl2 <> 0xFFFF ->
    spec_setRefreshRate rateCode
      (evs ++ [eeprom_write 0x11F0 (spec_updated ctrl rateCode) 0;
               EvDelay 10; EvDelay 20] ++ evs')
      (Z.land ctrl2 0x07 =? rateCode).

(** Wrap detection as the specification words it: each reading is compared
    with the one before it, the first with the stored baseline. *)
Fixpoint spec_wraps (last : Z) (readings : list Z) : list bool :=
  match readings with
  | [] => []
  | p :: rest => (p <? last) :: spec_wraps p rest
  end.

Section Observations.

Context {D : Type} `{Transport D}.

(** [n] successive calls: what each returned and the value it stored. *)
Fixpoint polls (n : nat) (m : Machine D) : list (bool * Z) :=
  match n with
  | O => []
  | S n' =>
      let r := isNewDataAvailable m in
      (result r, lastProgress (final r)) :: polls n' (final r)
  end.

(** The signed words of [n] pixels from index [i] on, read in index
    order. *)
Fixpoint read_pixels (n : nat) (i : Z) (m : Machine D) : list Z * Machine D :=
  match n with
  | O => ([], m)
  | S n' =>
      let r := readAddr_signed (pix_addr i) m in
      let rest := read_pixels n' (i + 1) (final r) in
      (result r :: fst rest, snd rest)
  end.

End Observations.

Section Line.

Variable format_1f : spec_float -> list ascii.

(** The line as the specification words it: one field per pixel, in
    order, none after the field that brings the length to the capacity
    minus the margin; [used] characters are in the buffer already. *)
Fixpoint spec_line (used : Z) (xs : list spec_float) : list ascii :=
  match xs with
  | [] => []
  | x :: rest =>
      let used' := used + Z.of_nat (length (field format_1f x)) in
      field format_1f x ++
      (if used' >=? FRAME_BUFFER_SIZE - 10 then [] else spec_line used' rest)
  end.

End Line.

(** ** Inputs of the examples *)

Definition fresh_buffer : list ascii := repeat NUL (Z.to_nat FRAME_BUFFER_SIZE).

(** 20.0, -5.25 and 100.05 as [float]s. *)
Definition frame3 : list spec_float :=
  [F32.literal 200 1; F32.literal (-525) 2; F32.literal 10005 2].

(** The same three pixels at the head of a full frame, the rest 0.0. *)
Definition frame3_padded : list spec_float :=
  frame3 ++ repeat (S754_zero false) 765.

(** A full frame of 1e8, twelve characters a field. *)
Definition frame_wide : list spec_float := repeat (F32.of_int 100000000) 768.


(** The configuration word reads 0b101, the write is accepted, the word
    reads 0b100 afterwards. *)
Definition mock_rate_ok : Mock := mkMock [0; 0; 0] [[0; 5]; [0; 4]].

(** The write is accepted but the verification read is not answered. *)
Definition mock_verify_fails : Mock := mkMock [0; 0; 2] [[0; 5]].

(** Every pixel reads the raw value 250. *)
Definition mock_all_250 : Mock := mkMock (repeat 0 768) (repeat [0; 250] 768).

(** The sensor-temperature register reads 3357. *)
Definition mock_ta : Mock := mkMock [0] [[0x0D; 0x1D]].

(** * The sketches and the rest of the driver *)

(** ** MLX90642_basicRead.ino: the wait at the head of [loop()]

    [while (!myIRcam.isNewDataAvailable()) { delay(1); }] with a bound on
    the number of polls; the result tells whether the loop was left. *)

Section Sketch.

Context {D : Type} `{Transport D}.

Fixpoint wait_new_data (fuel : nat) : M D bool :=
  match fuel with
  | O => ret false
  | S fuel' =>
      newFrame <- isNewDataAvailable ;;
      if negb newFrame then delay 1 ;;; wait_new_data fuel' else ret true
  end.

End Sketch.

(** ** MLX90642.cpp: [printFullPixelMap] *)

Definition CRLF : list ascii := [ascii_of_nat 13; ascii_of_nat 10].

Section PixelMap.

(** [Serial.print(int)] and [Serial.print(uint16_t, HEX)] of the Arduino
    core, as the renderings of a number in base 10 and in base 16. *)
Variable print_dec : Z -> list ascii.
Variable print_hex : Z -> list ascii.

(** The [for] loop of [printFullPixelMap], [todo] lines from index [i],
    appended to what [Serial] has received. *)
Fixpoint printFullPixelMap_from (todo : nat) (i : Z) (serial : list ascii)
  : list ascii :=
  match todo with
  | O => serial
  | S todo' =>
      let serial := serial ++ print_dec i in
      let serial := serial ++ list_ascii_of_string ", 0x" in
      let serial := serial ++ print_hex (pix_addr (to_u16 i)) ++ CRLF in
      printFullPixelMap_from todo' (i + 1) serial
  end.

(** [void printFullPixelMap()] *)
Definition printFullPixelMap (serial : list ascii) : list ascii :=
  let serial := serial ++ list_ascii_of_string "Full pixel address map:" ++ CRLF in
  let serial := printFullPixelMap_from (Z.to_nat NUM_PIXELS) 0 serial in
  let serial := serial ++ list_ascii_of_string "Last pixel address: 0x" in
  serial ++ print_hex (pix_addr (to_u16 (NUM_PIXELS - 1))) ++ CRLF.

(** What one line of the map is expected to read for pixel [i], by the
    comment at the head of the function: the index and [0x342C + 2 i]. *)
Definition map_line (i : Z) : list ascii :=
  print_dec i ++ list_ascii_of_string ", 0x"
    ++ print_hex (FRAME_ADDR + 2 * i) ++ CRLF.

End PixelMap.

(** ** MLX90642_Heatmap.pde: the pixel drawn in a cell of [draw()]

    [xadj=(invert_x)?COLS-x-1:x; yadj=(invert_y)?ROWS-y-1:y;
     int idx = yadj * COLS + xadj;] *)

Definition COLS : Z := 32.
Definition ROWS : Z := 24.

Definition cell_index (invert_x invert_y : bool) (x y : Z) : Z :=
  let xadj := if invert_x then COLS - x - 1 else x in
  let yadj := if invert_y then ROWS - y - 1 else y in
  yadj * COLS + xadj.

(** ** Two more transports *)

(** A bus with no device on it: every transmission is answered NACK on
    address (status 2), no request delivers a byte. *)
#[export] Instance Absent_transport : Transport unit := {
  transmit d _ _ _ := (2, d);
  request d _ _ := ([], d)
}.

(** A device that follows the protocol the driver's comments describe: a
    two-byte transmission selects a register, a request delivers the word
    selected, most significant byte first, and the six-byte configuration
    command (0x3A, 0x2E, address, data) stores a word.  Registers never
    written read 0. *)
Record Sensor : Type := mkSensor {
  registers : gmap Z Z;
  selected : Z
}.

#[export] Instance Sensor_transport : Transport Sensor := {
  transmit d _ bytes _ :=
    match bytes with
    | [hi; lo] => (0, mkSensor (registers d) (hi * 256 + lo))
    | [op; sub; ah; al; vh; vl] =>
        if (op =? 0x3A) && (sub =? 0x2E)
        then (0, mkSensor (<[ah * 256 + al := vh * 256 + vl]> (registers d))
                   (selected d))
        else (2, d)
    | _ => (2, d)
    end;
  request d _ _ :=
    let w := registers d !!! selected d in
    ([w / 256; w mod 256], d)
}.

(** ** Observations used by the further properties *)

(** An event of a register read: the address phase or the request. *)
Definition is_read_event (e : BusEvent) : bool :=
  match e with
  | EvTransmit _ [_; _] false _ => true
  | EvRequest _ _ _ => true
  | _ => false
  end.

Definition is_delay (e : BusEvent) : bool :=
  match e with
  | EvDelay _ => true
  | _ => false
  end.

(** The readings never fall: each is at least the one before it, the
    first at least [last]. *)
Fixpoint never_falls (last : Z) (readings : list Z) : Prop :=
  match readings with
  | [] => True
  | p :: rest => last <= p /\ never_falls p rest
  end.

(** The reads of the pixels from index [i] on as the bus shows them: one
    exchange per pixel at [FRAME_ADDR + 2 * i], in index order, and the
    signed words they yield. *)
Inductive spec_frame_reads : Z -> list Z -> list BusEvent -> Prop :=
| frame_reads_done i : spec_frame_reads i [] []
| frame_reads_pixel i v evs raws evs' :
    spec_read (FRAME_ADDR + 2 * i) evs v ->
    spec_frame_reads (i + 1) raws evs' ->
    spec_frame_reads i (to_i16 v :: raws) (evs ++ evs').

Section Exchange.

Context {D : Type} `{Transport D}.

(** One register read as a function of the device alone: the word, the
    device afterwards, the events, and the bytes left in [Wire]'s receive
    buffer when a request was made. *)
Definition read_exchange (a : Z) (d : D)
  : Z * D * list BusEvent * option (list Z) :=
  let (st, d1) := transmit d MLX90642_ADDR (word_bytes a) false in
  if negb (to_u8 st =? 0) then (0xFFFF, d1, [addr_phase a (to_u8 st)], None) else
  let (bs, d2) := request d1 MLX90642_ADDR 2 in
  let rx := take 2 (map to_u8 bs) in
  let evs := [addr_phase a 0; EvRequest MLX90642_ADDR 2 rx] in
  match rx with
  | [hi; lo] => (hi * 256 + lo, d2, evs, Some [])
  | _ => (0xFFFF, d2, evs, Some rx)
  end.

(** The machine a register read leaves. *)
Definition after_exchange (m : Machine D) (d : D) (evs : list BusEvent)
  (rx : option (list Z)) : Machine D :=
  mkMachine d MLX90642_ADDR [] (default (rxBuffer m) rx) (lastProgress m)
    (trace m ++ evs).

(** One configuration command as a function of the device alone: whether
    it was acknowledged, the device afterwards, the events (the settling
    delay of 10 ms follows an acknowledged command). *)
Definition write_exchange (a v : Z) (d : D) : bool * D * list BusEvent :=
  let (st, d1) :=
    transmit d MLX90642_ADDR ([0x3A; 0x2E] ++ word_bytes a ++ word_bytes v) true in
  (to_u8 st =? 0, d1,
   eeprom_write a v (to_u8 st) :: (if to_u8 st =? 0 then [EvDelay 10] else [])).

(** The rate change as the specification words it, run against the
    device: (1) read the configuration word, fail on the sentinel; (2)
    clear its low three bits and OR in the rate code; (3) write it, fail
    if the write is not acknowledged; (4) wait; (5) read the word again,
    fail on the sentinel; (6) succeed only if its low three bits equal the
    rate code.  The verdict, the device afterwards, the events. *)
Definition spec_rate_change (rateCode : Z) (d : D) : bool * D * list BusEvent :=
  let '(ctrl, d1, evs1, _) := read_exchange 0x11F0 d in
  if ctrl =? 0xFFFF then (false, d1, evs1) else
  let '(ok, d2, evs2) := write_exchange 0x11F0 (spec_updated ctrl rateCode) d1 in
  if negb ok then (false, d2, evs1 ++ evs2) else
  let '(ctrl2, d3, evs3, _) := read_exchange 0x11F0 d2 in
  (negb (ctrl2 =? 0xFFFF) && (Z.land ctrl2 0x07 =? rateCode), d3,
   evs1 ++ evs2 ++ [EvDelay 20] ++ evs3).

End Exchange.

(** * Properties *)

(** ** Machine integers *)

Lemma to_u8_range x : 0 <= to_u8 x < 256.
Proof. unfold to_u8. apply Z.mod_pos_bound. lia. Qed.

Lemma to_u16_range x : 0 <= to_u16 x < 65536.
Proof. unfold to_u16. apply Z.mod_pos_bound. lia. Qed.

Lemma to_u8_small x : 0 <= x < 256 -> to_u8 x = x.
Proof. intros. unfold to_u8. apply Z.mod_small. lia. Qed.

Lemma to_u16_small x : 0 <= x < 65536 -> to_u16 x = x.
Proof. intros. unfold to_u16. apply Z.mod_small. lia. Qed.

Lemma to_i16_range x : -32768 <= to_i16 x < 32768.
Proof.
  unfold to_i16. pose proof (Z.mod_pos_bound x 65536 ltac:(lia)).
  destruct (Z.ltb_spec (x mod 65536) 32768); lia.
Qed.

(** The signed reading and the unsigned one carry the same 16 bits. *)
Lemma to_i16_bits x : to_u16 (to_i16 x) = to_u16 x.
Proof.
  unfold to_i16, to_u16.
  destruct (Z.ltb_spec (x mod 65536) 32768).
  - apply Z.mod_mod. lia.
  - replace (x mod 65536 - 65536) with (x mod 65536 + (-1) * 65536) by lia.
    rewrite Z.mod_add by lia. apply Z.mod_mod. lia.
Qed.

(** ** Bit-level facts *)

Lemma lor_shiftl_low a b n :
  0 <= n -> 0 <= b < 2 ^ n -> Z.lor (Z.shiftl a n) b = a * 2 ^ n + b.
Proof.
  intros Hn Hb.
  rewrite <- Z.shiftl_mul_pow2 by lia.
  assert (Hdisj : Z.land (Z.shiftl a n) b = 0).
  { apply Z.bits_inj'. intros k Hk.
    rewrite Z.land_spec, Z.bits_0.
    destruct (Z.lt_ge_cases k n) as [Hlt | Hge].
    - rewrite Z.shiftl_spec_low by lia. reflexivity.
    - destruct (Z.eq_dec b 0) as [-> | Hnz].
      + rewrite Z.bits_0. apply andb_false_r.
      + rewrite (Z.bits_above_log2 b k); [apply andb_false_r | lia |].
        apply Z.lt_le_trans with n; [| lia].
        apply Z.log2_lt_pow2; lia. }
  rewrite (Z.add_nocarry_lxor _ _ Hdisj). symmetry. apply Z.lxor_lor, Hdisj.
Qed.

Lemma pack_bytes hi lo :
  0 <= hi < 256 -> 0 <= lo < 256 ->
  Z.lor (Z.shiftl hi 8) lo = hi * 256 + lo.
Proof. intros. rewrite lor_shiftl_low; lia. Qed.

Lemma pack_unsigned hi lo :
  0 <= hi < 256 -> 0 <= lo < 256 ->
  to_u16 (Z.lor (to_u16 (Z.shiftl (to_u8 hi) 8)) (to_u8 lo)) = hi * 256 + lo.
Proof.
  intros Hhi Hlo. rewrite !to_u8_small by lia.
  rewrite (to_u16_small (Z.shiftl hi 8)) by (rewrite Z.shiftl_mul_pow2; lia).
  rewrite pack_bytes by lia. apply to_u16_small. lia.
Qed.

Lemma pack_signed hi lo :
  0 <= hi < 256 -> 0 <= lo < 256 ->
  to_i16 (Z.lor (Z.shiftl (to_u8 hi) 8) (to_u8 lo)) = to_i16 (hi * 256 + lo).
Proof. intros. rewrite !to_u8_small by lia. rewrite pack_bytes by lia. reflexivity. Qed.

Lemma with_rate_value ctrl rate :
  0 <= ctrl < 65536 -> 0 <= rate < 8 ->
  with_rate ctrl rate = 8 * (ctrl / 8) + rate.
Proof.
  intros Hc Hr. unfold with_rate.
  rewrite <- Z.ldiff_land. change 7 with (Z.ones 3).
  rewrite Z.ldiff_ones_r by lia.
  rewrite Z.shiftr_div_pow2 by lia. change (2 ^ 3) with 8.
  assert (0 <= ctrl / 8 < 8192).
  { split; [apply Z.div_pos; lia | apply Z.div_lt_upper_bound; lia]. }
  rewrite (to_u16_small (Z.shiftl _ _)) by (rewrite Z.shiftl_mul_pow2; lia).
  rewrite (to_u16_small rate) by lia.
  rewrite lor_shiftl_low by (change (2 ^ 3) with 8; lia).
  change (2 ^ 3) with 8. rewrite to_u16_small; lia.
Qed.

Lemma with_rate_bits ctrl rate :
  0 <= ctrl < 65536 -> 0 <= rate < 8 ->
  0 <= with_rate ctrl rate < 65536 /\
  Z.shiftr (with_rate ctrl rate) 3 = Z.shiftr ctrl 3 /\
  Z.land (with_rate ctrl rate) 0x07 = rate.
Proof.
  intros Hc Hr. rewrite with_rate_value by assumption.
  assert (0 <= ctrl / 8 < 8192).
  { split; [apply Z.div_pos; lia | apply Z.div_lt_upper_bound; lia]. }
  split; [lia |]. split.
  - rewrite !Z.shiftr_div_pow2 by lia. change (2 ^ 3) with 8.
    rewrite (Z.mul_comm 8), Z.div_add_l by lia.
    rewrite (Z.div_small rate 8) by lia. lia.
  - change 7 with (Z.ones 3). rewrite Z.land_ones by lia. change (2 ^ 3) with 8.
    rewrite (Z.mul_comm 8), Z.add_comm, Z.mod_add by lia.
    apply Z.mod_small. lia.
Qed.

(** ** One register read on the bus *)

Lemma events_app {D A} (m : Machine D) (r : A * Machine D) evs :
  trace (final r) = trace m ++ evs -> events m r = evs.
Proof. unfold events. intros ->. apply drop_app_length. Qed.

Section ReadRuns.

Context {D : Type} `{Transport D}.

#[local] Arguments to_u8 : simpl never.
#[local] Arguments to_u16 : simpl never.
#[local] Arguments to_i16 : simpl never.
#[local] Arguments Z.shiftl : simpl never.
#[local] Arguments Z.shiftr : simpl never.
#[local] Arguments Z.lor : simpl never.
#[local] Arguments Z.land : simpl never.

(** Run one read symbolically: split on the status of the address phase
    and on the number of bytes the device sends. *)
Ltac run_read bs :=
  unfold readAddr_unsigned, readAddr_signed, bind, beginTransmission, write,
    endTransmission, requestFrom, available, read, ret, result, final;
  cbn;
  destruct (transmit _ _ _ _) as [st d1];
  cbn;
  pose proof (to_u8_range st);
  destruct (Z.eqb_spec (to_u8 st) 0) as [Hst | Hst];
  cbn;
  [ destruct (request _ _ _) as [bs d2];
    cbn;
    destruct bs as [| b1 [| b2 bs]];
    change (Z.to_nat 2) with 2%nat;
    cbn [map take length];
    match goal with
    | |- context [Z.of_nat ?n <? 2] =>
        let b := eval vm_compute in (Z.of_nat n <? 2) in
        change (Z.of_nat n <? 2) with b
    end;
    cbn
  | ].

Lemma readAddr_unsigned_run (a : Z) (m : Machine D) :
  let r := readAddr_unsigned a m in
  exists evs,
    trace (final r) = trace m ++ evs /\
    spec_read a evs (result r) /\
    lastProgress (final r) = lastProgress m.
Proof.
  run_read bs.
  - eexists; split; [rewrite <- app_assoc; reflexivity |]. split; [| reflexivity].
    rewrite Hst. apply read_short. simpl. lia.
  - eexists; split; [rewrite <- app_assoc; reflexivity |]. split; [| reflexivity].
    rewrite Hst. apply read_short. simpl. lia.
  - eexists; split; [rewrite <- app_assoc; reflexivity |]. split; [| reflexivity].
    rewrite Hst.
    rewrite pack_unsigned by apply to_u8_range.
    apply read_word; apply to_u8_range.
  - eexists; split; [reflexivity |]. split; [| reflexivity].
    apply read_addr_failed. assumption.
Qed.

Lemma readAddr_signed_unsigned (a : Z) (m : Machine D) :
  final (readAddr_signed a m) = final (readAddr_unsigned a m) /\
  result (readAddr_signed a m) = to_i16 (result (readAddr_unsigned a m)).
Proof.
  run_read bs; split; try reflexivity.
  rewrite pack_signed, pack_unsigned by apply to_u8_range. reflexivity.
Qed.

Lemma spec_read_range a evs v : spec_read a evs v -> 0 <= v < 65536.
Proof. destruct 1; lia. Qed.

Lemma spec_read_failed a evs v :
  spec_read a evs v -> read_failed evs = true -> v = 0xFFFF.
Proof.
  destruct 1 as [st Hst | rx Hrx | hi lo Hhi Hlo]; try reflexivity.
  discriminate.
Qed.

Lemma spec_read_sentinel a evs v :
  spec_read a evs v ->
  v = 0xFFFF <->
  read_failed evs = true \/
  evs = [addr_phase a 0; EvRequest MLX90642_ADDR 2 [0xFF; 0xFF]].
Proof.
  destruct 1 as [st Hst | rx Hrx | hi lo Hhi Hlo].
  - split; [intros _; left | reflexivity].
    cbn. destruct (Z.eqb_spec st 0); [contradiction | reflexivity].
  - split; [intros _; left | reflexivity].
    cbn. destruct (Z.ltb_spec (Z.of_nat (length rx)) 2); [reflexivity | lia].
  - split.
    + intros Hv. right. assert (hi = 255 /\ lo = 255) as [-> ->] by lia.
      reflexivity.
    + intros [Hf | Hev]; [discriminate |].
      injection Hev as -> ->. reflexivity.
Qed.

Lemma readAddr_unsigned_range (a : Z) (m : Machine D) :
  0 <= result (readAddr_unsigned a m) < 65536.
Proof.
  destruct (readAddr_unsigned_run a m) as (evs & _ & Hrun & _).
  eapply spec_read_range, Hrun.
Qed.

(** A register read is [read_exchange] on the device, whatever [Wire]'s
    buffers hold. *)
Lemma readAddr_unsigned_exchange (a : Z) (m : Machine D) :
  readAddr_unsigned a m =
    let '(v, d, evs, rx) := read_exchange a (device m) in
    (v, after_exchange m d evs rx).
Proof.
  destruct m as [d ta tb rb lp tr].
  cbv [readAddr_unsigned bind beginTransmission write endTransmission
         requestFrom available read ret read_exchange after_exchange
         device txAddress txBuffer rxBuffer lastProgress trace word_bytes
         addr_phase default from_option id].
  cbn [app].
  destruct (transmit _ _ _ _) as [st d1].
  destruct (Z.eqb_spec (to_u8 st) 0) as [Hst | Hst]; cbn [negb];
    [| reflexivity].
  rewrite Hst.
  destruct (request _ _ _) as [bs d2].
  change (Z.to_nat 2) with 2%nat.
  destruct bs as [| b1 [| b2 bs]]; cbn [map firstn length];
    try (rewrite <- app_assoc; reflexivity).
  rewrite take_0. cbn [length].
  change (Z.of_nat 2 <? 2) with false. cbv beta iota zeta.
  rewrite pack_unsigned by apply to_u8_range.
  rewrite <- app_assoc. reflexivity.
Qed.

Lemma read_exchange_run (a : Z) (d : D) :
  let '(v, _, evs, _) := read_exchange a d in spec_read a evs v.
Proof.
  pose proof (readAddr_unsigned_exchange a (boot d)) as Heq.
  destruct (readAddr_unsigned_run a (boot d)) as (evs' & Htr & Hrun & _).
  rewrite Heq in Htr, Hrun. cbn [boot device] in *.
  destruct (read_exchange a d) as [[[v d'] evs] rx].
  cbn [final result fst snd after_exchange trace boot app] in Htr, Hrun.
  subst evs'. exact Hrun.
Qed.

End ReadRuns.

(** ** One EEPROM write on the bus *)

Section WriteRuns.

Context {D : Type} `{Transport D}.

Lemma writeEEPROM_run (a v : Z) (m : Machine D) :
  let r := writeEEPROM a v m in
  exists st,
    result r = (st =? 0) /\
    trace (final r) =
      trace m ++ eeprom_write a v st :: (if st =? 0 then [EvDelay 10] else []) /\
    lastProgress (final r) = lastProgress m.
Proof.
  destruct m as [d ta tb rb lp tr].
  cbv [writeEEPROM bind beginTransmission write endTransmission delay ret
         result final device txAddress txBuffer rxBuffer lastProgress trace].
  cbn [app]. destruct (transmit _ _ _ _) as [st d1]. cbn.
  exists (to_u8 st).
  destruct (Z.eqb_spec (to_u8 st) 0) as [Hst | Hst]; cbn.
  - split; [reflexivity |]. split; [| reflexivity].
    rewrite <- app_assoc. reflexivity.
  - split; [reflexivity |]. split; reflexivity.
Qed.

(** A write is [write_exchange] on the device, whatever [Wire]'s buffers
    hold. *)
Lemma writeEEPROM_exchange (a v : Z) (m : Machine D) :
  writeEEPROM a v m =
    let '(ok, d, evs) := write_exchange a v (device m) in
    (ok, mkMachine d MLX90642_ADDR [] (rxBuffer m) (lastProgress m)
           (trace m ++ evs)).
Proof.
  destruct m as [d ta tb rb lp tr].
  cbv [writeEEPROM bind beginTransmission write endTransmission delay ret
         write_exchange device txAddress txBuffer rxBuffer lastProgress trace
         word_bytes].
  cbn [app]. destruct (transmit _ _ _ _) as [st d1].
  destruct (Z.eqb_spec (to_u8 st) 0) as [Hst | Hst]; cbn [negb].
  - rewrite <- app_assoc. reflexivity.
  - reflexivity.
Qed.

End WriteRuns.

(** ** Refresh rate *)

Lemma with_rate_spec_updated ctrl rate :
  0 <= ctrl < 65536 -> 0 <= rate < 8 ->
  with_rate ctrl rate = spec_updated ctrl rate.
Proof.
  intros Hc Hr. rewrite with_rate_value by assumption.
  unfold spec_updated. change 7 with (Z.ones 3).
  rewrite Z.ldiff_ones_r by lia.
  rewrite lor_shiftl_low by (change (2 ^ 3) with 8; lia).
  rewrite Z.shiftr_div_pow2 by lia. change (2 ^ 3) with 8. lia.
Qed.

Section RefreshRate.

Context {D : Type} `{Transport D}.

Lemma readAddr_unsigned_inv a (m : Machine D) v m' :
  readAddr_unsigned a m = (v, m') ->
  exists evs,
    trace m' = trace m ++ evs /\ spec_read a evs v /\
    lastProgress m' = lastProgress m.
Proof.
  intros E. pose proof (readAddr_unsigned_run a m) as Hrun.
  rewrite E in Hrun. exact Hrun.
Qed.

Lemma writeEEPROM_inv a v (m : Machine D) ok m' :
  writeEEPROM a v m = (ok, m') ->
  exists st,
    ok = (st =? 0) /\
    trace m' =
      trace m ++ eeprom_write a v st :: (if st =? 0 then [EvDelay 10] else []).
Proof.
  intros E. destruct (writeEEPROM_run a v m) as (st & Hok & Htr & _).
  rewrite E in Hok, Htr. exists st. split; assumption.
Qed.

Lemma setRefreshRate_guard rate :
  2 <= rate <= 5 -> (rate <? 2) || (rate >? 5) = false.
Proof.
  intros Hr. destruct (Z.ltb_spec rate 2); [lia |].
  rewrite Z.gtb_ltb. destruct (Z.ltb_spec 5 rate); [lia | reflexivity].
Qed.

Lemma setRefreshRate_guard_invalid rate :
  ~ (2 <= rate <= 5) -> (rate <? 2) || (rate >? 5) = true.
Proof.
  intros Hr. destruct (Z.ltb_spec rate 2); [reflexivity |].
  rewrite Z.gtb_ltb. destruct (Z.ltb_spec 5 rate); [reflexivity | lia].
Qed.

(** The stages of a call with a valid code, one after the other. *)
Lemma setRefreshRate_stages rate (m : Machine D) :
  2 <= rate <= 5 ->
  let r1 := readAddr_unsigned 0x11F0 m in
  let r2 := writeEEPROM 0x11F0 (with_rate (result r1) rate) (final r1) in
  let r3 := readAddr_unsigned 0x11F0 (final (delay 20 (final r2))) in
  setRefreshRate rate m =
    if result r1 =? 0xFFFF then (false, final r1)
    else if negb (result r2) then (false, final r2)
    else if result r3 =? 0xFFFF then (false, final r3)
    else (Z.land (result r3) 0x07 =? rate, final r3).
Proof.
  intros Hr. cbv zeta. unfold setRefreshRate.
  rewrite (setRefreshRate_guard rate Hr).
  unfold bind at 1.
  destruct (readAddr_unsigned 0x11F0 m) as [ctrl m1]. cbn [result final fst snd].
  destruct (ctrl =? 0xFFFF); [reflexivity |].
  unfold bind at 1. fold (with_rate ctrl rate).
  destruct (writeEEPROM 0x11F0 (with_rate ctrl rate) m1) as [ok m2].
  cbn [result final fst snd].
  destruct ok; cbn [negb]; [| reflexivity].
  unfold bind at 1. destruct (delay 20 m2) as [[] m2'] eqn:Ed.
  cbn [result final fst snd].
  unfold bind at 1.
  destruct (readAddr_unsigned 0x11F0 m2') as [ctrl2 m3].
  cbn [result final fst snd].
  destruct (ctrl2 =? 0xFFFF); reflexivity.
Qed.

Lemma delay_run ms (m : Machine D) :
  trace (final (delay ms m)) = trace m ++ [EvDelay ms] /\
  lastProgress (final (delay ms m)) = lastProgress m.
Proof. split; reflexivity. Qed.

(** What [spec_rate_change] puts on the bus is a read-modify-write-verify
    sequence, with the verdict it gives. *)
Lemma spec_rate_change_sequence rate (d : D) :
  let '(ok, _, evs) := spec_rate_change rate d in
  spec_setRefreshRate rate evs ok.
Proof.
  unfold spec_rate_change.
  pose proof (read_exchange_run 0x11F0 d) as Hrun1.
  destruct (read_exchange 0x11F0 d) as [[[ctrl d1] evs1] rx1].
  destruct (Z.eqb_spec ctrl 0xFFFF) as [-> | Hne1];
    [apply rate_read_failed, Hrun1 |].
  unfold write_exchange.
  destruct (transmit d1 _ _ _) as [st d2].
  destruct (Z.eqb_spec (to_u8 st) 0) as [Hst | Hst]; cbn [negb].
  2:{ eapply rate_write_failed; eassumption. }
  rewrite Hst.
  pose proof (read_exchange_run 0x11F0 d2) as Hrun3.
  destruct (read_exchange 0x11F0 d2) as [[[ctrl2 d3] evs3] rx3].
  destruct (Z.eqb_spec ctrl2 0xFFFF) as [-> | Hne3]; cbn [negb andb].
  - exact (rate_verify_failed rate evs1 ctrl evs3 Hrun1 Hne1 Hrun3).
  - exact (rate_verified rate evs1 ctrl evs3 ctrl2 Hrun1 Hne1 Hrun3 Hne3).
Qed.

(** C1. For every valid rate code (2, 3, 4 or 5) [setRefreshRate] reads
    the configuration word at 0x11F0 and fails if the read yields 0xFFFF;
    otherwise it writes back the word read with its low three bits
    replaced by the rate code, all upper bits preserved, and fails if the
    write is not acknowledged; otherwise it reads the word again, fails if
    that read yields 0xFFFF, and succeeds exactly when the low three bits
    of the word read back equal the rate code.  The call is these stages
    and nothing else, and its verdict, the device it leaves and the events
    it puts on the bus are those of the specification's sequence run
    against the device. *)
Theorem setRefreshRate_valid_sequence (rate : Z) (m : Machine D) :
  2 <= rate <= 5 ->
  let r := setRefreshRate rate m in
  let r1 := readAddr_unsigned 0x11F0 m in
  let r2 := writeEEPROM 0x11F0 (spec_updated (result r1) rate) (final r1) in
  let r3 := readAddr_unsigned 0x11F0 (final (delay 20 (final r2))) in
  r = (if result r1 =? 0xFFFF then (false, final r1)
       else if negb (result r2) then (false, final r2)
       else if result r3 =? 0xFFFF then (false, final r3)
       else (Z.land (result r3) 0x07 =? rate, final r3)) /\
  (let '(ok, d, evs) := spec_rate_change rate (device m) in
   result r = ok /\ device (final r) = d /\ trace (final r) = trace m ++ evs) /\
  lastProgress (final r) = lastProgress m /\
  (exists evs,
      trace (final r) = trace m ++ evs /\
      spec_setRefreshRate rate evs (result r)) /\
  (forall ctrl, 0 <= ctrl < 65536 ->
      Z.shiftr (spec_updated ctrl rate) 3 = Z.shiftr ctrl 3 /\
      Z.land (spec_updated ctrl rate) 0x07 = rate).
Proof.
  intros Hr. cbv zeta.
  assert (Hstages :
    setRefreshRate rate m =
      (let r1 := readAddr_unsigned 0x11F0 m in
       let r2 := writeEEPROM 0x11F0 (spec_updated (result r1) rate) (final r1) in
       let r3 := readAddr_unsigned 0x11F0 (final (delay 20 (final r2))) in
       if result r1 =? 0xFFFF then (false, final r1)
       else if negb (result r2) then (false, final r2)
       else if result r3 =? 0xFFFF then (false, final r3)
       else (Z.land (result r3) 0x07 =? rate, final r3))).
  { rewrite (setRefreshRate_stages rate m Hr). cbv zeta.
    rewrite with_rate_spec_updated
      by (apply readAddr_unsigned_range || lia).
    reflexivity. }
  assert (Hdev :
    let '(ok, d, evs) := spec_rate_change rate (device m) in
    result (setRefreshRate rate m) = ok /\
    device (final (setRefreshRate rate m)) = d /\
    trace (final (setRefreshRate rate m)) = trace m ++ evs /\
    lastProgress (final (setRefreshRate rate m)) = lastProgress m).
  { rewrite Hstages. cbv zeta. unfold spec_rate_change.
    rewrite (readAddr_unsigned_exchange 0x11F0 m).
    destruct (read_exchange 0x11F0 (device m)) as [[[ctrl d1] evs1] rx1].
    cbn [result final fst snd].
    destruct (ctrl =? 0xFFFF).
    { cbn [result final fst snd after_exchange device trace lastProgress].
      repeat split; reflexivity. }
    rewrite writeEEPROM_exchange.
    cbn [after_exchange device trace lastProgress rxBuffer].
    destruct (write_exchange 0x11F0 (spec_updated ctrl rate) d1) as [[ok d2] evs2].
    cbn [result final fst snd].
    destruct ok; cbn [negb].
    2:{ cbn [result final fst snd device trace lastProgress].
        rewrite <- app_assoc. repeat split; reflexivity. }
    rewrite readAddr_unsigned_exchange.
    cbn [delay final snd device].
    destruct (read_exchange 0x11F0 d2) as [[[ctrl2 d3] evs3] rx3].
    cbn [result final fst snd].
    destruct (ctrl2 =? 0xFFFF); cbn [negb andb];
      cbn [result final fst snd after_exchange device trace lastProgress];
      rewrite <- !app_assoc; repeat split; reflexivity. }
  pose proof (spec_rate_change_sequence rate (device m)) as Hseq.
  destruct (spec_rate_change rate (device m)) as [[ok d] evs].
  destruct Hdev as (Hres & Hd & Htr & Hlp).
  split; [exact Hstages |].
  split; [repeat split; assumption |].
  split; [exact Hlp |].
  split; [exists evs; split; [exact Htr | rewrite Hres; exact Hseq] |].
  intros ctrl Hc. rewrite <- with_rate_spec_updated by lia.
  apply with_rate_bits; lia.
Qed.

(** C6. For every rate code (a [uint8_t]) outside 2..5 [setRefreshRate]
    returns failure and leaves the machine as it was: nothing is queued,
    nothing reaches the bus, no state changes. *)
Theorem setRefreshRate_invalid_rejected (rate : Z) (m : Machine D) :
  0 <= rate < 256 ->
  ~ (2 <= rate <= 5) ->
  setRefreshRate rate m = (false, m).
Proof.
  intros _ Hr. unfold setRefreshRate.
  rewrite (setRefreshRate_guard_invalid rate Hr). reflexivity.
Qed.

Lemma spec_read_no_write a evs v :
  spec_read a evs v -> Forall (fun e => is_eeprom_write e = false) evs.
Proof. destruct 1; repeat constructor. Qed.

(** C10. When the rate code (a [uint8_t]) is invalid, or the first read of
    the configuration word yields 0xFFFF, [setRefreshRate] returns failure
    and no EEPROM write is issued: the machine is as the caller left it,
    or as that one read left it. *)
Theorem setRefreshRate_early_failure_no_write (rate : Z) (m : Machine D) :
  0 <= rate < 256 ->
  ~ (2 <= rate <= 5) \/ result (readAddr_unsigned 0x11F0 m) = 0xFFFF ->
  let r := setRefreshRate rate m in
  result r = false /\
  Forall (fun e => is_eeprom_write e = false) (events m r) /\
  final r =
    if (2 <=? rate) && (rate <=? 5)
    then final (readAddr_unsigned 0x11F0 m) else m.
Proof.
  intros _ Hearly. cbv zeta.
  destruct (Z.leb_spec 2 rate) as [H2 | H2];
    [destruct (Z.leb_spec rate 5) as [H5 | H5] |]; cbn [andb].
  - destruct Hearly as [Hbad | Hread]; [lia |].
    rewrite (setRefreshRate_stages rate m) by lia.
    rewrite Hread. cbn [Z.eqb Pos.eqb result final fst snd].
    split; [reflexivity |]. split; [| reflexivity].
    destruct (readAddr_unsigned_run 0x11F0 m) as (evs & Htr & Hrun & _).
    unfold events. cbn [final snd]. fold (final (readAddr_unsigned 0x11F0 m)).
    rewrite Htr, drop_app_length. eapply spec_read_no_write, Hrun.
  - unfold setRefreshRate. rewrite setRefreshRate_guard_invalid by lia.
    unfold events, ret. cbn [result final fst snd]. rewrite drop_all.
    split; [reflexivity |]. split; [constructor | reflexivity].
  - unfold setRefreshRate. rewrite setRefreshRate_guard_invalid by lia.
    unfold events, ret. cbn [result final fst snd]. rewrite drop_all.
    split; [reflexivity |]. split; [constructor | reflexivity].
Qed.

End RefreshRate.

(** C9. The verification compares the low three bits only: when the first
    read, the write and the second read all succeed, the call ends with
    the second read and its verdict is the comparison of the low three
    bits of the word read back with the rate code, true when they are
    equal and false when they differ, whatever the upper thirteen bits
    are.  There is a run that succeeds although the upper thirteen bits
    read back differ from those written, and a run that fails although
    they are the same. *)
Theorem setRefreshRate_checks_low_bits_only :
  (forall (D : Type) (T : Transport D) (rate : Z) (m : Machine D),
      2 <= rate <= 5 ->
      let r1 := readAddr_unsigned 0x11F0 m in
      let written := with_rate (result r1) rate in
      let r2 := writeEEPROM 0x11F0 written (final r1) in
      let r3 := readAddr_unsigned 0x11F0 (final (delay 20 (final r2))) in
      result r1 <> 0xFFFF -> result r2 = true -> result r3 <> 0xFFFF ->
      setRefreshRate rate m = (Z.land (result r3) 0x07 =? rate, final r3) /\
      (Z.land (result r3) 0x07 = rate ->
       result (setRefreshRate rate m) = true) /\
      (Z.land (result r3) 0x07 <> rate ->
       result (setRefreshRate rate m) = false) /\
      (forall w, Z.land w 0x07 = Z.land (result r3) 0x07 ->
       result (setRefreshRate rate m) = (Z.land w 0x07 =? rate))) /\
  (exists m : Machine Mock,
      let r1 := readAddr_unsigned 0x11F0 m in
      let written := with_rate (result r1) 4 in
      let r2 := writeEEPROM 0x11F0 written (final r1) in
      let r3 := readAddr_unsigned 0x11F0 (final (delay 20 (final r2))) in
      result r1 <> 0xFFFF /\ result r2 = true /\ result r3 <> 0xFFFF /\
      result (setRefreshRate 4 m) = true /\
      Z.shiftr (result r3) 3 <> Z.shiftr written 3) /\
  (exists m : Machine Mock,
      let r1 := readAddr_unsigned 0x11F0 m in
      let written := with_rate (result r1) 4 in
      let r2 := writeEEPROM 0x11F0 written (final r1) in
      let r3 := readAddr_unsigned 0x11F0 (final (delay 20 (final r2))) in
      result r1 <> 0xFFFF /\ result r2 = true /\ result r3 <> 0xFFFF /\
      result (setRefreshRate 4 m) = false /\
      Z.shiftr (result r3) 3 = Z.shiftr written 3).
Proof.
  split; [| split].
  - intros D T rate m Hr r1 written r2 r3 H1 H2 H3.
    assert (Hcall : setRefreshRate rate m =
                    (Z.land (result r3) 0x07 =? rate, final r3)).
    { rewrite (setRefreshRate_stages rate m Hr).
      fold r1. fold written. fold r2. fold r3.
      destruct (Z.eqb_spec (result r1) 0xFFFF); [contradiction |].
      rewrite H2. cbn [negb].
      destruct (Z.eqb_spec (result r3) 0xFFFF); [contradiction |].
      reflexivity. }
    rewrite Hcall. cbn [result fst].
    split; [reflexivity |]. split; [| split].
    + apply Z.eqb_eq.
    + apply Z.eqb_neq.
    + intros w ->. reflexivity.
  - exists (boot (mkMock [0; 0; 0] [[0x12; 0x35]; [0xAB; 0xCC]])).
    vm_compute. repeat split; discriminate.
  - exists (boot (mkMock [0; 0; 0] [[0x12; 0x35]; [0x12; 0x35]])).
    vm_compute. repeat split; discriminate.
Qed.

(** ** Register access *)

(** C3 (amended). [readAddr_unsigned] returns 0xFFFF whenever the address
    phase reports non-success or fewer than two bytes are available, and
    otherwise the two bytes packed most significant first; that word is
    0xFFFF too when both bytes are 0xFF, so 0xFFFF is returned exactly on a
    failure or on such a reply.  [readAddr_signed] runs the same bus
    sequence and returns the same sixteen bits read in two's complement, -1
    on a failure. *)
Theorem readAddr_results (D : Type) (T : Transport D) (a : Z) (m : Machine D) :
  let ru := readAddr_unsigned a m in
  let rs := readAddr_signed a m in
  let evs := events m ru in
  trace (final ru) = trace m ++ evs /\
  spec_read a evs (result ru) /\
  (read_failed evs = true -> result ru = 0xFFFF) /\
  (result ru = 0xFFFF <->
   read_failed evs = true \/
   evs = [addr_phase a 0; EvRequest MLX90642_ADDR 2 [0xFF; 0xFF]]) /\
  final rs = final ru /\
  result rs = to_i16 (result ru) /\
  (read_failed evs = true -> result rs = -1).
Proof.
  cbv zeta.
  destruct (readAddr_unsigned_run a m) as (evs & Htr & Hrun & _).
  rewrite (events_app _ _ _ Htr).
  destruct (readAddr_signed_unsigned a m) as [Hfin Hres].
  split; [exact Htr |]. split; [exact Hrun |].
  split; [apply (spec_read_failed _ _ _ Hrun) |].
  split; [apply (spec_read_sentinel _ _ _ Hrun) |].
  split; [exact Hfin |]. split; [exact Hres |].
  intros Hf. rewrite Hres, (spec_read_failed _ _ _ Hrun Hf). reflexivity.
Qed.

(** C3 as stated fails: a device that answers a successful read with the
    bytes 0xFF 0xFF makes [readAddr_unsigned] return 0xFFFF although the
    address phase succeeded and two bytes were available. *)
Lemma readAddr_unsigned_sentinel_without_failure :
  let m := boot (mkMock [0] [[0xFF; 0xFF]]) in
  let r := readAddr_unsigned 0x3C10 m in
  events m r = [addr_phase 0x3C10 0; EvRequest MLX90642_ADDR 2 [0xFF; 0xFF]] /\
  ~ (result r = 0xFFFF <-> read_failed (events m r) = true).
Proof.
  cbv zeta. split; [reflexivity |].
  intros [Hfail _]. discriminate (Hfail eq_refl).
Qed.

(** ** Pixel addresses *)

(** C4. For a pixel index (a [uint16_t]) below 768, [pix_addr] is 0x342C
    plus twice the index, an even address; for every index from 768 on it
    is 0.  The function is pure: it never touches the bus. *)
Theorem pix_addr_spec (i : Z) :
  0 <= i < 65536 ->
  (i < NUM_PIXELS ->
   pix_addr i = FRAME_ADDR + 2 * i /\ pix_addr i = 0x342C + 2 * i /\
   Z.even (pix_addr i) = true) /\
  (NUM_PIXELS <= i -> pix_addr i = 0) /\
  NUM_PIXELS = 768.
Proof.
  intros Hi. unfold pix_addr, NUM_PIXELS, FRAME_ADDR.
  split; [| split; [| reflexivity]].
  - intros Hlt. rewrite Z.geb_leb.
    destruct (Z.leb_spec 768 i); [lia |].
    rewrite to_u16_small by lia.
    split; [lia |]. split; [lia |].
    replace (13356 + i * 2) with (2 * (6678 + i)) by lia.
    apply Z.even_spec. exists (6678 + i). reflexivity.
  - intros Hge. rewrite Z.geb_leb.
    destruct (Z.leb_spec 768 i); [reflexivity | lia].
Qed.

Lemma pix_addr_spec_witness :
  pix_addr 767 = 0x3A2A /\ Z.even (pix_addr 767) = true /\ pix_addr 768 = 0.
Proof.
  destruct (pix_addr_spec 767 ltac:(lia)) as (Hin & _ & _).
  destruct (pix_addr_spec 768 ltac:(lia)) as (_ & Hout & _).
  destruct (Hin ltac:(unfold NUM_PIXELS; lia)) as (_ & Haddr & Heven).
  split; [exact Haddr |]. split; [exact Heven |].
  apply Hout. unfold NUM_PIXELS. lia.
Defined.

(** ** Frame synchronisation *)

Section FrameSync.

Context {D : Type} `{Transport D}.

Lemma isNewDataAvailable_once (m : Machine D) :
  let rd := readAddr_unsigned 0x3C10 m in
  isNewDataAvailable m =
    (result rd <? lastProgress m,
     final (set_lastProgress (result rd) (final rd))).
Proof.
  cbv zeta. unfold isNewDataAvailable, bind, get_lastProgress, ret.
  destruct (readAddr_unsigned_run 0x3C10 m) as (_ & _ & _ & Hlp).
  destruct (readAddr_unsigned 0x3C10 m) as [p m1].
  cbn [result final fst snd] in *. rewrite Hlp. reflexivity.
Qed.

Lemma polls_wraps (n : nat) (m : Machine D) :
  map fst (polls n m) = spec_wraps (lastProgress m) (map snd (polls n m)).
Proof.
  revert m. induction n as [| n IH]; intros m; [reflexivity |].
  cbn [polls map spec_wraps fst snd]. rewrite IH. f_equal.
  rewrite isNewDataAvailable_once. reflexivity.
Qed.

(** C2. [isNewDataAvailable] keeps the previous progress value, 0 at
    start; each call reads register 0x3C10 once, returns true exactly when
    the new reading is strictly below the stored one, and stores the new
    reading whatever it is.  So a first call returns false, and the
    readings 10, 50, 90, 5, 40 from the initial state give false, false,
    false, true, false. *)
Theorem isNewDataAvailable_spec (m : Machine D) :
  let rd := readAddr_unsigned 0x3C10 m in
  let r := isNewDataAvailable m in
  (forall d : D, lastProgress (boot d) = 0) /\
  result r = (result rd <? lastProgress m) /\
  final r = final (set_lastProgress (result rd) (final rd)) /\
  lastProgress (final r) = result rd /\
  trace (final r) = trace (final rd) /\
  (lastProgress m = 0 -> result r = false) /\
  (forall n, map fst (polls n m) =
             spec_wraps (lastProgress m) (map snd (polls n m))) /\
  (lastProgress m = 0 ->
   map snd (polls 5 m) = [10; 50; 90; 5; 40] ->
   map fst (polls 5 m) = [false; false; false; true; false]).
Proof.
  cbv zeta. rewrite isNewDataAvailable_once. cbn [result final fst snd].
  split; [reflexivity |]. split; [reflexivity |]. split; [reflexivity |].
  split; [reflexivity |]. split; [reflexivity |].
  split; [| split].
  - intros ->. pose proof (readAddr_unsigned_range 0x3C10 m) as Hrange.
    destruct (Z.ltb_spec (result (readAddr_unsigned 0x3C10 m)) 0);
      [lia | reflexivity].
  - intros n. apply polls_wraps.
  - intros Hlp Hread. rewrite polls_wraps, Hlp, Hread. reflexivity.
Qed.

End FrameSync.

(** The scripted progress readings 10, 50, 90, 5, 40. *)
Example isNewDataAvailable_wrap_sequence :
  polls 5 (boot (mkMock [0; 0; 0; 0; 0]
                   [[0; 10]; [0; 50]; [0; 90]; [0; 5]; [0; 40]])) =
  [(false, 10); (false, 50); (false, 90); (true, 5); (false, 40)].
Proof. reflexivity. Qed.

(** A failed read stores the sentinel, and the next reading looks like a
    wrap. *)
Example isNewDataAvailable_read_failure :
  polls 2 (boot (mkMock [2; 0] [[0; 10]])) = [(false, 0xFFFF); (true, 10)].
Proof. reflexivity. Qed.

(** ** Temperatures *)

Section TemperatureReads.

Context {D : Type} `{Transport D}.

Lemma read_pixels_length n i m : length (fst (read_pixels n i m)) = n.
Proof.
  revert i m. induction n as [| n IH]; intros i m; [reflexivity |].
  cbn [read_pixels fst length]. rewrite IH. reflexivity.
Qed.

Lemma store_in_range {A} (a : list A) (k : nat) (v : A) :
  (k < length a)%nat -> store a (Z.of_nat k) v = Some (<[k := v]> a).
Proof.
  intros Hk. unfold store.
  destruct (Z.leb_spec 0 (Z.of_nat k)); [| lia].
  destruct (Z.ltb_spec (Z.of_nat k) (Z.of_nat (length a))); [| lia].
  rewrite Nat2Z.id. reflexivity.
Qed.

Lemma readTempC_from_spec (todo k : nat) (Tram : list spec_float) (m : Machine D) :
  (k + todo <= Z.to_nat NUM_PIXELS)%nat -> (k + todo <= length Tram)%nat ->
  let raws := read_pixels todo (Z.of_nat k) m in
  readTempC_from todo (Z.of_nat k) Tram m =
    (Some (take k Tram ++ map pixel_temp (fst raws) ++ drop (k + todo) Tram),
     snd raws).
Proof.
  revert k Tram m. induction todo as [| todo IH]; intros k Tram m Hpix Hlen.
  - cbn [read_pixels readTempC_from fst snd map app]. unfold ret.
    rewrite Nat.add_0_r, take_drop. reflexivity.
  - cbn [read_pixels readTempC_from fst snd map]. unfold bind.
    assert (Hk : to_u16 (Z.of_nat k) = Z.of_nat k).
    { apply to_u16_small. unfold NUM_PIXELS in Hpix. lia. }
    rewrite Hk.
    destruct (readAddr_signed (pix_addr (Z.of_nat k)) m) as [raw m1].
    cbn [result final fst snd].
    rewrite store_in_range by lia.
    replace (Z.of_nat k + 1) with (Z.of_nat (S k)) by lia.
    rewrite IH by (rewrite ?length_insert; lia).
    f_equal. f_equal.
    rewrite (take_S_r _ _ (pixel_temp raw))
      by (apply list_lookup_insert_eq; lia).
    rewrite take_insert_ge by lia.
    rewrite drop_insert_lt by lia.
    rewrite <- app_assoc. cbn [app].
    replace (S k + todo)%nat with (k + S todo)%nat by lia. reflexivity.
Qed.


(** C7. [readTa] reads the signed word at 0x3A2C and returns it divided
    by 100.0f; the word 3357 gives the float nearest to 33.57. *)
Theorem readTa_spec (m : Machine D) :
  let r := readAddr_signed 0x3A2C m in
  readTa m = (F32.div (F32.of_int (result r)) (F32.of_int 100), final r) /\
  result r = to_i16 (result (readAddr_unsigned 0x3A2C m)) /\
  F32.represents (F32.of_int 100) 100 1 = true /\
  (result r = 3357 ->
   result (readTa m) = S754_finite false 8800174 (-18) /\
   F32.rounds (result (readTa m)) 3357 100 = true).
Proof.
  cbv zeta. unfold readTa, bind, ret.
  destruct (readAddr_signed_unsigned 0x3A2C m) as [_ Hres].
  destruct (readAddr_signed 0x3A2C m) as [raw m1].
  cbn [result final fst snd] in *.
  split; [reflexivity |]. split; [exact Hres |]. split; [reflexivity |].
  intros ->. split; reflexivity.
Qed.

End TemperatureReads.

(** ** Frame output *)

Section PrintFrameFacts.

Variable format_1f : spec_float -> list ascii.

Lemma blit_length buf pos cs :
  (pos + length cs <= length buf)%nat ->
  length (blit buf pos cs) = length buf.
Proof.
  intros Hfit. unfold blit.
  rewrite !length_app, length_take, length_drop. lia.
Qed.

Lemma blit_take buf pos cs rest :
  (pos <= length buf)%nat ->
  take (pos + length cs) (blit buf pos (cs ++ rest)) = take pos buf ++ cs.
Proof.
  intros Hpos. unfold blit.
  assert (Hlen : length (take pos buf) = pos) by (rewrite length_take; lia).
  rewrite <- Hlen at 1. rewrite take_app_add'  by reflexivity.
  rewrite <- app_assoc, take_app_length. reflexivity.
Qed.

(** [snprintf] at [&buf[p]] with the rest of the array as its size. *)
Lemma snprintf_rest buf (p : nat) x :
  (p < length buf)%nat ->
  snprintf format_1f buf (Z.of_nat p) (Z.of_nat (length buf) - Z.of_nat p) x =
    Some (Z.of_nat (length (field format_1f x)),
          blit buf p (take (length buf - p - 1) (field format_1f x) ++ [NUL])).
Proof.
  intros Hp. unfold snprintf.
  destruct (Z.leb_spec 0 (Z.of_nat p)); [| lia].
  destruct (Z.ltb_spec 0 (Z.of_nat (length buf) - Z.of_nat p)); [| lia].
  destruct (Z.leb_spec (Z.of_nat p + (Z.of_nat (length buf) - Z.of_nat p))
              (Z.of_nat (length buf))); [| lia].
  cbn [andb]. rewrite Nat2Z.id.
  replace (Z.to_nat (Z.of_nat (length buf) - Z.of_nat p - 1))
    with (length buf - p - 1)%nat by lia.
  reflexivity.
Qed.

(** The loop: the index it leaves is the length of the line, whatever the
    fields; when no field is longer than 9 characters the buffer holds the
    line and two more bytes fit. *)
Lemma printFrame_from_spec (Tdat : list spec_float) (todo k p : nat)
      (buf : list ascii) :
  length buf = Z.to_nat FRAME_BUFFER_SIZE ->
  Z.of_nat p < FRAME_BUFFER_SIZE - 10 ->
  (k + todo <= length Tdat)%nat ->
  let line := spec_line format_1f (Z.of_nat p) (take todo (drop k Tdat)) in
  exists buf',
    printFrame_from format_1f todo (Z.of_nat k) (Z.of_nat p) buf Tdat =
      Some (Z.of_nat (p + length line), buf') /\
    length buf' = length buf /\
    (Forall (fun x => (length (field format_1f x) <= 9)%nat)
       (take todo (drop k Tdat)) ->
     take (p + length line) buf' = take p buf ++ line /\
     Z.of_nat (p + length line) <= FRAME_BUFFER_SIZE - 2).
Proof.
  revert k p buf. induction todo as [| todo IH]; intros k p buf Hbuf Hp Hk.
  - cbn. exists buf. rewrite Nat.add_0_r, app_nil_r.
    split; [reflexivity |]. split; [reflexivity |]. intros _.
    split; [reflexivity | unfold FRAME_BUFFER_SIZE in *; lia].
  - destruct (lookup_lt_is_Some_2 Tdat k ltac:(lia)) as [x Hx].
    rewrite (drop_S _ _ _ Hx). cbn [take].
    cbn [printFrame_from spec_line]. rewrite Nat2Z.id, Hx.
    cbn [mbind option_bind].
    assert (HN : Z.of_nat (length buf) = FRAME_BUFFER_SIZE)
      by (rewrite Hbuf; reflexivity).
    rewrite <- HN.
    rewrite snprintf_rest by (unfold FRAME_BUFFER_SIZE in *; lia).
    cbn [mbind option_bind].
    assert (Hpos : (1 <= length (field format_1f x))%nat) by (cbn; lia).
    destruct (Z.leb_spec (Z.of_nat (length (field format_1f x))) 0); [lia |].
    rewrite HN, !Z.geb_leb.
    set (buf1 := blit buf p (take (length buf - p - 1) (field format_1f x) ++ [NUL])).
    assert (Hbuf1 : length buf1 = length buf).
    { apply blit_length. rewrite length_app, length_take. cbn [length].
      unfold FRAME_BUFFER_SIZE in *. lia. }
    assert (Htake1 : (length (field format_1f x) <= 9)%nat ->
              take (p + length (field format_1f x)) buf1 =
              take p buf ++ field format_1f x).
    { intros Hfield. unfold buf1.
      rewrite (take_ge (field format_1f x))
        by (unfold FRAME_BUFFER_SIZE in *; lia).
      apply blit_take. unfold FRAME_BUFFER_SIZE in *. lia. }
    rewrite <- Nat2Z.inj_add.
    destruct (Z.leb_spec (FRAME_BUFFER_SIZE - 10)
                (Z.of_nat (p + length (field format_1f x)))) as [Hstop | Hgo].
    + exists buf1. rewrite app_nil_r.
      split; [reflexivity |]. split; [exact Hbuf1 |].
      intros Hall. apply Forall_cons in Hall as [Hfield _].
      split; [exact (Htake1 Hfield) |].
      unfold FRAME_BUFFER_SIZE in *. lia.
    + replace (Z.of_nat k + 1) with (Z.of_nat (S k)) by lia.
      destruct (IH (S k) (p + length (field format_1f x))%nat buf1)
        as (buf' & Hrun & Hlen & Hcontent); [lia | exact Hgo | lia |].
      exists buf'. rewrite length_app, Nat.add_assoc.
      split; [exact Hrun |]. split; [lia |].
      intros Hall. apply Forall_cons in Hall as [Hfield Hall].
      destruct (Hcontent Hall) as [Htake Hend].
      split; [| exact Hend].
      rewrite Htake, (Htake1 Hfield), <- app_assoc. reflexivity.
Qed.

(** The whole call, for fields of at most 9 characters. *)
Lemma printFrame_line (frameBuffer : list ascii) (Tdat : list spec_float) :
  length frameBuffer = Z.to_nat FRAME_BUFFER_SIZE ->
  (Z.to_nat NUM_PIXELS <= length Tdat)%nat ->
  Forall (fun x => (length (field format_1f x) <= 9)%nat)
    (take (Z.to_nat NUM_PIXELS) Tdat) ->
  let line := spec_line format_1f 0 (take (Z.to_nat NUM_PIXELS) Tdat) in
  exists frameBuffer',
    printFrame format_1f frameBuffer Tdat = Some (frameBuffer', line ++ [LF]) /\
    length frameBuffer' = Z.to_nat FRAME_BUFFER_SIZE /\
    Z.of_nat (length line) + 2 <= FRAME_BUFFER_SIZE /\
    take (length line + 2) frameBuffer' = line ++ [LF; NUL].
Proof.
  intros Hbuf Hlen Hall. cbv zeta. unfold printFrame.
  revert Hlen Hall. generalize (Z.to_nat NUM_PIXELS) as N. intros N Hlen Hall.
  destruct (printFrame_from_spec Tdat N 0 0 frameBuffer Hbuf)
    as (buf1 & Hrun & Hlen1 & Hcontent);
    [unfold FRAME_BUFFER_SIZE; lia | lia |].
  rewrite drop_0 in Hrun, Hcontent. destruct (Hcontent Hall) as [Htake Hend].
  clear Hcontent. rewrite take_0 in Htake.
  cbn [Nat.add app] in Hrun, Htake, Hend.
  change (Z.of_nat 0) with 0 in Hrun, Htake, Hend.
  set (line := spec_line format_1f 0 (take N Tdat)) in *.
  assert (HN : Z.of_nat (length buf1) = FRAME_BUFFER_SIZE)
    by (rewrite Hlen1, Hbuf; reflexivity).
  exists (<[S (length line) := NUL]> (<[length line := LF]> buf1)).
  split; [| split; [| split]].
  - rewrite Hrun. cbn [mbind option_bind].
    rewrite store_in_range by lia. cbn [mbind option_bind].
    replace (Z.of_nat (length line) + 1) with (Z.of_nat (S (length line))) by lia.
    rewrite store_in_range by (rewrite length_insert; lia).
    cbn [mbind option_bind]. rewrite Nat2Z.id.
    f_equal. f_equal.
    rewrite take_insert_ge by lia.
    rewrite (take_S_r _ _ LF) by (apply list_lookup_insert_eq; lia).
    rewrite take_insert_ge by lia. rewrite Htake. reflexivity.
  - rewrite !length_insert, Hlen1. exact Hbuf.
  - lia.
  - replace (length line + 2)%nat with (S (S (length line))) by lia.
    rewrite (take_S_r _ _ NUL)
      by (apply list_lookup_insert_eq; rewrite length_insert; lia).
    rewrite take_insert_ge by lia.
    rewrite (take_S_r _ _ LF) by (apply list_lookup_insert_eq; lia).
    rewrite take_insert_ge by lia. rewrite Htake, <- app_assoc. reflexivity.
Qed.


Lemma concat_fields_length (xs : list spec_float) (w : nat) :
  Forall (fun x => (length (field format_1f x) <= w)%nat) xs ->
  (length (concat (map (field format_1f) xs)) <= w * length xs)%nat.
Proof.
  induction 1 as [| x xs Hx _ IH]; [cbn; lia |].
  cbn [map concat length]. rewrite length_app. lia.
Qed.



End PrintFrameFacts.

Section PrintFrameSpec.

Variable format_1f : spec_float -> list ascii.

Lemma spec_line_fields (used : Z) (xs : list spec_float) :
  exists n : nat,
    (n <= length xs)%nat /\
    spec_line format_1f used xs = concat (map (field format_1f) (take n xs)) /\
    (n = length xs \/
     FRAME_BUFFER_SIZE - 10 <=
       used + Z.of_nat (length (spec_line format_1f used xs))) /\
    (forall j, (0 < j < n)%nat ->
       used + Z.of_nat (length (concat (map (field format_1f) (take j xs))))
         < FRAME_BUFFER_SIZE - 10).
Proof.
  revert used. induction xs as [| x rest IH]; intros used.
  - exists 0%nat. cbn. repeat split; [lia | left; reflexivity | lia].
  - cbn [spec_line]. rewrite Z.geb_leb.
    destruct (Z.leb_spec (FRAME_BUFFER_SIZE - 10)
                (used + Z.of_nat (length (field format_1f x)))) as [Hstop | Hgo].
    + exists 1%nat. cbn [length take map concat].
      split; [lia |]. split; [reflexivity |]. split; [| lia].
      right. rewrite app_nil_r. exact Hstop.
    + destruct (IH (used + Z.of_nat (length (field format_1f x))))
        as (n & Hn & Hline & Hfull & Hbefore).
      exists (S n). cbn [length take map concat].
      split; [lia |]. split; [rewrite Hline; reflexivity |]. split.
      * destruct Hfull as [-> | Hfull]; [left; reflexivity | right].
        rewrite length_app. lia.
      * intros [| j] Hj; [lia |]. cbn [take map concat].
        rewrite length_app. destruct j as [| j].
        -- rewrite take_0. cbn [map concat length]. lia.
        -- specialize (Hbefore (S j) ltac:(lia)). lia.
Qed.


End PrintFrameSpec.

Lemma frame3_padded_length :
  (Z.to_nat NUM_PIXELS <= length frame3_padded)%nat.
Proof.
  unfold frame3_padded. rewrite length_app, repeat_length. vm_compute. lia.
Qed.

Lemma frame3_padded_fields :
  Forall (fun x => (length (field Libc.format_1f x) <= 9)%nat)
    (take (Z.to_nat NUM_PIXELS) frame3_padded).
Proof.
  apply Forall_take, Forall_app. split.
  - repeat constructor; vm_compute; lia.
  - apply Forall_forall. intros x Hx.
    apply list_elem_of_In, repeat_spec in Hx. subst x. vm_compute. lia.
Qed.



(** With a C library that rounds ties to even the padded frame is printed
    as [",20.0,-5.2,100.1,0.0,..."]. *)
Example printFrame_padded_head :
  exists buf' text,
    printFrame Libc.format_1f fresh_buffer frame3_padded = Some (buf', text) /\
    take 20 text = list_ascii_of_string ",20.0,-5.2,100.1,0.0".
Proof.
  destruct (printFrame_line Libc.format_1f fresh_buffer frame3_padded
              (repeat_length _ _) frame3_padded_length frame3_padded_fields)
    as (buf' & Hrun & _).
  exists buf'. eexists. split; [exact Hrun |]. vm_compute. reflexivity.
Qed.

(** ** The scenarios of the specification, on the mock transport *)

Example setRefreshRate_mock_success :
  let r := setRefreshRate 4 (boot mock_rate_ok) in
  result r = true /\
  trace (final r) =
    [addr_phase 0x11F0 0; EvRequest MLX90642_ADDR 2 [0; 5];
     EvTransmit MLX90642_ADDR [0x3A; 0x2E; 0x11; 0xF0; 0x00; 0x04] true 0;
     EvDelay 10; EvDelay 20;
     addr_phase 0x11F0 0; EvRequest MLX90642_ADDR 2 [0; 4]].
Proof. split; reflexivity. Qed.

Example setRefreshRate_mock_verify_fails :
  let r := setRefreshRate 4 (boot mock_verify_fails) in
  result r = false /\
  trace (final r) =
    [addr_phase 0x11F0 0; EvRequest MLX90642_ADDR 2 [0; 5];
     eeprom_write 0x11F0 4 0; EvDelay 10; EvDelay 20;
     addr_phase 0x11F0 2].
Proof. split; reflexivity. Qed.

Example readTempC_mock_all_250 :
  result (readTempC (repeat (S754_zero false) 768) (boot mock_all_250)) =
  Some (repeat (F32.of_int 5) 768).
Proof. vm_compute. reflexivity. Qed.

Example readTa_mock_3357 :
  result (readTa (boot mock_ta)) = S754_finite false 8800174 (-18).
Proof. reflexivity. Qed.

(** ** The theorems at concrete inputs *)

Lemma setRefreshRate_valid_sequence_witness :
  2 <= 4 <= 5 /\
  (result (setRefreshRate 4 (boot mock_rate_ok)) = true /\
   trace (final (setRefreshRate 4 (boot mock_rate_ok))) =
     [addr_phase 0x11F0 0; EvRequest MLX90642_ADDR 2 [0; 5];
      eeprom_write 0x11F0 4 0; EvDelay 10; EvDelay 20;
      addr_phase 0x11F0 0; EvRequest MLX90642_ADDR 2 [0; 4]]) /\
  (result (setRefreshRate 4 (boot mock_verify_fails)) = false /\
   trace (final (setRefreshRate 4 (boot mock_verify_fails))) =
     [addr_phase 0x11F0 0; EvRequest MLX90642_ADDR 2 [0; 5];
      eeprom_write 0x11F0 4 0; EvDelay 10; EvDelay 20;
      addr_phase 0x11F0 2]).
Proof.
  split; [lia |]. split.
  - pose proof (setRefreshRate_valid_sequence 4 (boot mock_rate_ok) ltac:(lia))
      as (_ & Hdev & _).
    cbv zeta in Hdev. cbn [boot device trace app] in Hdev.
    assert (Hspec : spec_rate_change 4 mock_rate_ok =
              (true, mkMock [] [],
               [addr_phase 0x11F0 0; EvRequest MLX90642_ADDR 2 [0; 5];
                eeprom_write 0x11F0 4 0; EvDelay 10; EvDelay 20;
                addr_phase 0x11F0 0; EvRequest MLX90642_ADDR 2 [0; 4]]))
      by (vm_compute; reflexivity).
    rewrite Hspec in Hdev. destruct Hdev as (Hres & _ & Htr).
    split; [exact Hres | exact Htr].
  - pose proof (setRefreshRate_valid_sequence 4 (boot mock_verify_fails) ltac:(lia))
      as (_ & Hdev & _).
    cbv zeta in Hdev. cbn [boot device trace app] in Hdev.
    assert (Hspec : spec_rate_change 4 mock_verify_fails =
              (false, mkMock [] [],
               [addr_phase 0x11F0 0; EvRequest MLX90642_ADDR 2 [0; 5];
                eeprom_write 0x11F0 4 0; EvDelay 10; EvDelay 20;
                addr_phase 0x11F0 2]))
      by (vm_compute; reflexivity).
    rewrite Hspec in Hdev. destruct Hdev as (Hres & _ & Htr).
    split; [exact Hres | exact Htr].
Defined.

Lemma setRefreshRate_invalid_rejected_witness :
  0 <= 7 < 256 /\ ~ (2 <= 7 <= 5) /\
  setRefreshRate 7 (boot mock_rate_ok) = (false, boot mock_rate_ok).
Proof.
  split; [lia |]. split; [lia |].
  apply (setRefreshRate_invalid_rejected 7 (boot mock_rate_ok)); lia.
Defined.

Lemma setRefreshRate_early_failure_no_write_witness :
  0 <= 4 < 256 /\
  result (readAddr_unsigned 0x11F0 (boot (mkMock [2] []))) = 0xFFFF /\
  result (setRefreshRate 4 (boot (mkMock [2] []))) = false /\
  Forall (fun e => is_eeprom_write e = false)
    (events (boot (mkMock [2] [])) (setRefreshRate 4 (boot (mkMock [2] [])))).
Proof.
  split; [lia |]. split; [reflexivity |].
  pose proof (setRefreshRate_early_failure_no_write 4 (boot (mkMock [2] []))
                ltac:(lia) (or_intror eq_refl)) as (Hres & Hnowrite & _).
  split; [exact Hres | exact Hnowrite].
Defined.

Lemma setRefreshRate_checks_low_bits_only_witness :
  let m := boot (mkMock [0; 0; 0] [[0x12; 0x35]; [0xAB; 0xCC]]) in
  let m' := boot (mkMock [0; 0; 0] [[0x12; 0x35]; [0x12; 0x35]]) in
  2 <= 4 <= 5 /\
  result (setRefreshRate 4 m) = true /\
  result (setRefreshRate 4 m') = false.
Proof.
  cbv zeta. split; [lia |]. split.
  - destruct (proj1 setRefreshRate_checks_low_bits_only Mock Mock_transport 4
                (boot (mkMock [0; 0; 0] [[0x12; 0x35]; [0xAB; 0xCC]])))
      as (Hcall & _);
      [lia | vm_compute; discriminate | reflexivity | vm_compute; discriminate |].
    rewrite Hcall. reflexivity.
  - destruct (proj1 setRefreshRate_checks_low_bits_only Mock Mock_transport 4
                (boot (mkMock [0; 0; 0] [[0x12; 0x35]; [0x12; 0x35]])))
      as (Hcall & _);
      [lia | vm_compute; discriminate | reflexivity | vm_compute; discriminate |].
    rewrite Hcall. reflexivity.
Defined.

Lemma isNewDataAvailable_spec_witness :
  let m := boot (mkMock [0; 0; 0; 0; 0]
                   [[0; 10]; [0; 50]; [0; 90]; [0; 5]; [0; 40]]) in
  lastProgress m = 0 /\
  map snd (polls 5 m) = [10; 50; 90; 5; 40] /\
  result (isNewDataAvailable m) = false /\
  map fst (polls 5 m) = [false; false; false; true; false].
Proof.
  cbv zeta. split; [reflexivity |]. split; [reflexivity |].
  pose proof (isNewDataAvailable_spec
                (boot (mkMock [0; 0; 0; 0; 0]
                         [[0; 10]; [0; 50]; [0; 90]; [0; 5]; [0; 40]])))
    as (_ & _ & _ & _ & _ & Hfirst & _ & Hseq).
  split; [apply Hfirst; reflexivity | apply Hseq; reflexivity].
Defined.


Lemma readTa_spec_witness :
  result (readAddr_signed 0x3A2C (boot mock_ta)) = 3357 /\
  result (readTa (boot mock_ta)) = S754_finite false 8800174 (-18) /\
  F32.rounds (result (readTa (boot mock_ta))) 3357 100 = true.
Proof.
  split; [reflexivity |].
  pose proof (readTa_spec (boot mock_ta)) as (_ & _ & _ & Hval).
  exact (Hval eq_refl).
Defined.


(** * Further properties *)

(** ** Words on the wire *)

Lemma word_bytes_value w :
  0 <= w < 65536 -> word_bytes w = [w / 256; w mod 256].
Proof.
  intros Hw. unfold word_bytes.
  rewrite Z.shiftr_div_pow2 by lia. change (2 ^ 8) with 256.
  change 255 with (Z.ones 8). rewrite Z.land_ones by lia. change (2 ^ 8) with 256.
  assert (0 <= w / 256 < 256).
  { split; [apply Z.div_pos; lia | apply Z.div_lt_upper_bound; lia]. }
  pose proof (Z.mod_pos_bound w 256 ltac:(lia)).
  rewrite !to_u8_small by lia. reflexivity.
Qed.

Section WriteSpec.

Context {D : Type} `{Transport D}.

(** X1. [writeEEPROM] puts exactly one transmission on the bus: 0x3A, 0x2E,
    the address and the value, each most significant byte first, with the
    bus released.  It returns true exactly when that transmission
    completes with status 0, and waits 10 ms only then. *)
Theorem writeEEPROM_spec (a v : Z) (m : Machine D) :
  0 <= a < 65536 -> 0 <= v < 65536 ->
  let r := writeEEPROM a v m in
  exists st,
    0 <= st < 256 /\
    result r = (st =? 0) /\
    events m r =
      EvTransmit 0x66 [0x3A; 0x2E; a / 256; a mod 256; v / 256; v mod 256] true st
      :: (if st =? 0 then [EvDelay 10] else []) /\
    lastProgress (final r) = lastProgress m.
Proof.
  intros Ha Hv. cbv zeta.
  pose proof (word_bytes_value a Ha) as Hab.
  pose proof (word_bytes_value v Hv) as Hvb.
  unfold word_bytes in Hab, Hvb.
  injection Hab as Ha1 Ha2. injection Hvb as Hv1 Hv2.
  destruct m as [d ta tb rb lp tr].
  cbv [writeEEPROM bind beginTransmission write endTransmission delay ret
         result final events device txAddress txBuffer rxBuffer lastProgress
         trace].
  cbn [app]. rewrite Ha1, Ha2, Hv1, Hv2.
  destruct (transmit _ _ _ _) as [st d1]. cbn [fst snd].
  exists (to_u8 st). split; [apply to_u8_range |].
  destruct (Z.eqb_spec (to_u8 st) 0) as [Hst | Hst]; cbn [negb fst snd].
  - split; [reflexivity |]. split; [| reflexivity].
    rewrite <- app_assoc, drop_app_length. reflexivity.
  - split; [reflexivity |]. split; [| reflexivity].
    rewrite drop_app_length. reflexivity.
Qed.

End WriteSpec.

Lemma writeEEPROM_spec_witness :
  0 <= 0x11F0 < 65536 /\ 0 <= 0x1234 < 65536 /\
  exists st,
    result (writeEEPROM 0x11F0 0x1234 (boot (mkMock [0] []))) = (st =? 0) /\
    events (boot (mkMock [0] [])) (writeEEPROM 0x11F0 0x1234 (boot (mkMock [0] []))) =
      EvTransmit 0x66 [0x3A; 0x2E; 0x11; 0xF0; 0x12; 0x34] true st
      :: (if st =? 0 then [EvDelay 10] else []).
Proof.
  split; [lia |]. split; [lia |].
  destruct (writeEEPROM_spec 0x11F0 0x1234 (boot (mkMock [0] []))
              ltac:(lia) ltac:(lia)) as (st & _ & Hres & Hev & _).
  exists st. split; [exact Hres | exact Hev].
Defined.

(** ** Pixel addresses *)

(** X2. The error value of [pix_addr] is unambiguous: for a [uint16_t]
    index the result is 0 exactly when the index is 768 or more.  A valid
    index gives an address between 0x342C and 0x3A2A, so never the
    sensor-temperature register 0x3A2C, the progress register 0x3C10 or the
    configuration word 0x11F0. *)
Theorem pix_addr_sentinel (i : Z) :
  0 <= i < 65536 ->
  (pix_addr i = 0 <-> NUM_PIXELS <= i) /\
  (i < NUM_PIXELS ->
   0x342C <= pix_addr i <= 0x3A2A /\
   pix_addr i <> 0x3A2C /\ pix_addr i <> 0x3C10 /\ pix_addr i <> 0x11F0).
Proof.
  intros Hi. unfold pix_addr, NUM_PIXELS, FRAME_ADDR. rewrite Z.geb_leb.
  destruct (Z.leb_spec 768 i) as [Hout | Hin].
  - split; [split; [lia | reflexivity] | lia].
  - rewrite to_u16_small by lia. split; [split; lia | lia].
Qed.

Lemma pix_addr_sentinel_witness :
  0 <= 767 < 65536 /\ 767 < NUM_PIXELS /\ pix_addr 767 <> 0x3A2C /\
  0 <= 768 < 65536 /\ pix_addr 768 = 0.
Proof.
  split; [lia |]. split; [reflexivity |].
  destruct (pix_addr_sentinel 767 ltac:(lia)) as [_ Hin].
  destruct (pix_addr_sentinel 768 ltac:(lia)) as [Hzero _].
  split; [apply Hin; reflexivity |]. split; [lia |].
  apply Hzero. unfold NUM_PIXELS. lia.
Defined.

(** X3. On valid indices [pix_addr] is strictly increasing, hence
    injective, and the index is recovered from the address: two pixels
    never share a register. *)
Theorem pix_addr_increasing (i j : Z) :
  0 <= i < NUM_PIXELS -> 0 <= j < NUM_PIXELS ->
  (i < j <-> pix_addr i < pix_addr j) /\
  (pix_addr i = pix_addr j -> i = j) /\
  (pix_addr i - FRAME_ADDR) / 2 = i.
Proof.
  unfold pix_addr, NUM_PIXELS, FRAME_ADDR. intros Hi Hj. rewrite !Z.geb_leb.
  destruct (Z.leb_spec 768 i); [lia |]. destruct (Z.leb_spec 768 j); [lia |].
  rewrite !to_u16_small by lia.
  split; [lia |]. split; [lia |].
  replace (13356 + i * 2 - 13356) with (i * 2) by lia.
  apply Z.div_mul. lia.
Qed.

Lemma pix_addr_increasing_witness :
  0 <= 3 < NUM_PIXELS /\ 0 <= 700 < NUM_PIXELS /\
  pix_addr 3 < pix_addr 700 /\ (pix_addr 700 - FRAME_ADDR) / 2 = 700.
Proof.
  assert (H3 : 0 <= 3 < NUM_PIXELS) by (unfold NUM_PIXELS; lia).
  assert (H700 : 0 <= 700 < NUM_PIXELS) by (unfold NUM_PIXELS; lia).
  split; [exact H3 |]. split; [exact H700 |].
  destruct (pix_addr_increasing 3 700 H3 H700) as (Hlt & _ & _).
  destruct (pix_addr_increasing 700 3 H700 H3) as (_ & _ & Hidx).
  split; [apply Hlt; lia | exact Hidx].
Defined.

(** ** The word written by [setRefreshRate] *)

(** X4. The update of the configuration word composes as a user expects:
    the last rate written wins whatever was written before, writing the
    rate the word already holds gives back the same word, and for a valid
    rate the result is never the read sentinel 0xFFFF. *)
Theorem with_rate_algebra (ctrl r1 r2 : Z) :
  0 <= ctrl < 65536 -> 0 <= r1 < 8 -> 0 <= r2 < 8 ->
  with_rate (with_rate ctrl r1) r2 = with_rate ctrl r2 /\
  with_rate ctrl (Z.land ctrl 0x07) = ctrl /\
  (r1 <= 5 -> with_rate ctrl r1 <> 0xFFFF).
Proof.
  intros Hc H1 H2.
  destruct (with_rate_bits ctrl r1 Hc H1) as (Hrange & _ & _).
  assert (Hq : 0 <= ctrl / 8 < 8192).
  { split; [apply Z.div_pos; lia | apply Z.div_lt_upper_bound; lia]. }
  split; [| split].
  - rewrite (with_rate_value (with_rate ctrl r1)) by assumption.
    rewrite (with_rate_value ctrl r1), (with_rate_value ctrl r2) by assumption.
    assert (Hdiv : (8 * (ctrl / 8) + r1) / 8 = ctrl / 8).
    { symmetry. apply (Z.div_unique _ 8 (ctrl / 8) r1); lia. }
    rewrite Hdiv. reflexivity.
  - change 7 with (Z.ones 3). rewrite Z.land_ones by lia. change (2 ^ 3) with 8.
    pose proof (Z.mod_pos_bound ctrl 8 ltac:(lia)).
    rewrite with_rate_value by lia.
    symmetry. apply Z.div_mod. lia.
  - intros Hr. rewrite with_rate_value by assumption. lia.
Qed.

Lemma with_rate_algebra_witness :
  0 <= 0x1235 < 65536 /\ 0 <= 3 < 8 /\ 0 <= 4 < 8 /\
  with_rate (with_rate 0x1235 3) 4 = with_rate 0x1235 4 /\
  with_rate 0x1235 3 <> 0xFFFF.
Proof.
  split; [lia |]. split; [lia |]. split; [lia |].
  destruct (with_rate_algebra 0x1235 3 4 ltac:(lia) ltac:(lia) ltac:(lia))
    as (Hlast & _ & Hsent).
  split; [exact Hlast | apply Hsent; lia].
Defined.

(** ** Register reads, seen from the device *)

Section ExchangeFacts.

Context {D : Type} `{Transport D}.

(** X5. A register read depends on the device alone: two machines with
    the same device, whatever bytes an earlier exchange left in [Wire]'s
    transmit and receive buffers and whatever [lastProgress] is, read the
    same word, put the same events on the bus and leave the same device;
    and a read never changes [lastProgress]. *)
Theorem readAddr_unsigned_device_only (a : Z) (m m' : Machine D) :
  device m = device m' ->
  let r := readAddr_unsigned a m in
  let r' := readAddr_unsigned a m' in
  result r = result r' /\
  events m r = events m' r' /\
  device (final r) = device (final r') /\
  lastProgress (final r) = lastProgress m /\
  result (readAddr_signed a m) = result (readAddr_signed a m').
Proof.
  intros Hdev. cbv zeta.
  destruct (readAddr_signed_unsigned a m) as [_ Hs].
  destruct (readAddr_signed_unsigned a m') as [_ Hs'].
  rewrite Hs, Hs'. unfold events.
  rewrite !readAddr_unsigned_exchange, <- Hdev.
  destruct (read_exchange a (device m)) as [[[v d] evs] rx].
  cbn [result final fst snd after_exchange device lastProgress trace].
  rewrite !drop_app_length. repeat split; reflexivity.
Qed.

End ExchangeFacts.

Lemma readAddr_unsigned_device_only_witness :
  let m := boot (mkMock [0] [[0x12; 0x34]]) in
  let m' := mkMachine (mkMock [0] [[0x12; 0x34]]) 0x55 [1; 2; 3] [0xFF] 77
              [EvDelay 5] in
  device m = device m' /\
  result (readAddr_unsigned 0x3C10 m) = result (readAddr_unsigned 0x3C10 m') /\
  events m (readAddr_unsigned 0x3C10 m) = events m' (readAddr_unsigned 0x3C10 m').
Proof.
  cbv zeta. split; [reflexivity |].
  destruct (readAddr_unsigned_device_only 0x3C10
              (boot (mkMock [0] [[0x12; 0x34]]))
              (mkMachine (mkMock [0] [[0x12; 0x34]]) 0x55 [1; 2; 3] [0xFF] 77
                 [EvDelay 5]) eq_refl) as (Hres & Hev & _).
  split; [exact Hres | exact Hev].
Defined.

(** ** Frame synchronisation and the wait of [loop()] *)

Lemma spec_wraps_never_falls (last : Z) (readings : list Z) :
  spec_wraps last readings = repeat false (length readings) <->
  never_falls last readings.
Proof.
  revert last. induction readings as [| p rest IH]; intros last.
  - cbn. tauto.
  - cbn [spec_wraps length repeat never_falls]. split.
    + intros [= Hp Hrest]. apply Z.ltb_ge in Hp.
      split; [exact Hp | apply IH, Hrest].
    + intros [Hp Hrest]. f_equal; [apply Z.ltb_ge, Hp | apply IH, Hrest].
Qed.

Lemma never_falls_stuck (c : Z) (n : nat) : never_falls c (repeat c n).
Proof. induction n as [| n IH]; cbn [repeat never_falls]; [exact I | split; [lia | exact IH]]. Qed.

Section FrameSyncMore.

Context {D : Type} `{Transport D}.

Lemma polls_length (n : nat) (m : Machine D) : length (polls n m) = n.
Proof.
  revert m. induction n as [| n IH]; intros m; [reflexivity |].
  cbn [polls length]. rewrite IH. reflexivity.
Qed.

(** What one call does, from the device and the stored value alone. *)
Lemma isNewDataAvailable_exchange (m : Machine D) :
  isNewDataAvailable m =
    let '(v, d, evs, rx) := read_exchange 0x3C10 (device m) in
    (v <? lastProgress m,
     mkMachine d MLX90642_ADDR [] (default (rxBuffer m) rx) v (trace m ++ evs)).
Proof.
  rewrite isNewDataAvailable_once. cbv zeta.
  rewrite readAddr_unsigned_exchange.
  destruct (read_exchange 0x3C10 (device m)) as [[[v d] evs] rx].
  reflexivity.
Qed.

Lemma polls_core (n : nat) (m m' : Machine D) :
  device m = device m' -> lastProgress m = lastProgress m' ->
  polls n m = polls n m'.
Proof.
  revert m m'. induction n as [| n IH]; intros m m' Hd Hl; [reflexivity |].
  cbn [polls]. rewrite !isNewDataAvailable_exchange, <- Hd, <- Hl.
  destruct (read_exchange 0x3C10 (device m)) as [[[v d] evs] rx].
  cbn [result final fst snd lastProgress]. f_equal.
  apply IH; reflexivity.
Qed.

(** X6. Over [n] successive calls, starting from the stored value,
    [isNewDataAvailable] reports no new frame at all exactly when the
    progress readings never fall: the first is not below the stored value
    and each later one not below the one before it.  When all the readings
    are one value (a counter that is stuck, or a bus on which every read
    fails and yields 0xFFFF), only the first call can report a new frame,
    which it does exactly when that value is below the stored one; every
    later call reports none. *)
Theorem isNewDataAvailable_silent (n : nat) (m : Machine D) :
  (map fst (polls n m) = repeat false n <->
   never_falls (lastProgress m) (map snd (polls n m))) /\
  (forall c, map snd (polls (S n) m) = repeat c (S n) ->
     map fst (polls (S n) m) = (c <? lastProgress m) :: repeat false n).
Proof.
  split.
  - rewrite polls_wraps.
    pose proof (spec_wraps_never_falls (lastProgress m) (map snd (polls n m)))
      as Hiff.
    rewrite length_map, polls_length in Hiff. exact Hiff.
  - intros c Hstuck. rewrite polls_wraps, Hstuck.
    cbn [repeat spec_wraps]. f_equal.
    pose proof (spec_wraps_never_falls c (repeat c n)) as [_ Hflat].
    rewrite repeat_length in Hflat. apply Hflat, never_falls_stuck.
Qed.

(** X7. A read failure poisons the next call: once a call has stored the
    sentinel 0xFFFF, the following call reports a new frame for every
    reading but 0xFFFF itself, whether or not the counter wrapped. *)
Theorem isNewDataAvailable_after_failure (m : Machine D) :
  result (readAddr_unsigned 0x3C10 m) = 0xFFFF ->
  let r1 := isNewDataAvailable m in
  let r2 := isNewDataAvailable (final r1) in
  lastProgress (final r1) = 0xFFFF /\
  result r2 = negb (lastProgress (final r2) =? 0xFFFF).
Proof.
  intros Hfail. cbv zeta.
  rewrite (isNewDataAvailable_once m). cbn [final snd set_lastProgress lastProgress].
  rewrite Hfail. split; [reflexivity |].
  set (m1 := mkMachine _ _ _ _ 0xFFFF _).
  rewrite (isNewDataAvailable_once m1).
  cbn [result final fst snd set_lastProgress lastProgress].
  pose proof (readAddr_unsigned_range 0x3C10 m1) as Hrange.
  unfold m1 at 2. cbn [lastProgress].
  destruct (Z.eqb_spec (result (readAddr_unsigned 0x3C10 m1)) 0xFFFF) as [Heq | Hne];
    cbn [negb].
  - rewrite Heq. reflexivity.
  - apply Z.ltb_lt. lia.
Qed.

(** How long the wait lasts. *)
Lemma wait_new_data_result (fuel : nat) (m : Machine D) :
  result (wait_new_data fuel m) = existsb id (map fst (polls fuel m)).
Proof.
  revert m. induction fuel as [| fuel IH]; intros m; [reflexivity |].
  cbn [wait_new_data polls map existsb fst]. unfold bind at 1.
  destruct (isNewDataAvailable m) as [b m1]. cbn [result final fst snd].
  destruct b; cbn [negb id orb]; [reflexivity |].
  unfold bind. cbn [delay]. fold (@result D bool). rewrite IH.
  f_equal. f_equal. apply polls_core; reflexivity.
Qed.

(** X8. The wait at the head of [loop()] is left within [fuel] polls
    exactly when one of the first [fuel] calls of [isNewDataAvailable]
    reports a new frame; the 1 ms delays between the polls change nothing
    of what is read. *)
Theorem wait_new_data_exits (fuel : nat) (m : Machine D) :
  result (wait_new_data fuel m) = true <->
  exists k, (k < fuel)%nat /\ map fst (polls fuel m) !! k = Some true.
Proof.
  rewrite wait_new_data_result, existsb_exists. split.
  - intros (b & Hin & Hb). unfold id in Hb. subst b.
    apply list_elem_of_In, list_elem_of_lookup in Hin as [k Hk].
    exists k. split; [| exact Hk].
    apply lookup_lt_Some in Hk. rewrite length_map, polls_length in Hk. exact Hk.
  - intros (k & _ & Hk). exists true. split; [| reflexivity].
    apply list_elem_of_In, list_elem_of_lookup. exists k. exact Hk.
Qed.

(** X9. The driver has no timeout: while the progress readings never
    fall, the wait of [loop()] is not left, however many polls are
    allowed. *)
Theorem wait_new_data_hangs (fuel : nat) (m : Machine D) :
  never_falls (lastProgress m) (map snd (polls fuel m)) ->
  result (wait_new_data fuel m) = false.
Proof.
  intros Hflat. rewrite wait_new_data_result.
  assert (Hsilent : map fst (polls fuel m) = repeat false fuel).
  { rewrite polls_wraps.
    apply spec_wraps_never_falls in Hflat.
    rewrite length_map, polls_length in Hflat. exact Hflat. }
  rewrite Hsilent. clear. induction fuel as [| fuel IH]; [reflexivity |].
  cbn [repeat existsb id orb]. exact IH.
Qed.

End FrameSyncMore.

Lemma isNewDataAvailable_after_failure_witness :
  let m := boot (mkMock [2; 0] [[0; 10]]) in
  result (readAddr_unsigned 0x3C10 m) = 0xFFFF /\
  result (isNewDataAvailable (final (isNewDataAvailable m))) = true.
Proof.
  cbv zeta.
  assert (Hfail : result (readAddr_unsigned 0x3C10 (boot (mkMock [2; 0] [[0; 10]])))
                  = 0xFFFF) by (vm_compute; reflexivity).
  split; [exact Hfail |].
  destruct (isNewDataAvailable_after_failure (boot (mkMock [2; 0] [[0; 10]]))
              Hfail) as [_ Hnext].
  rewrite Hnext. vm_compute. reflexivity.
Defined.

Lemma isNewDataAvailable_silent_witness :
  let m := mkMachine (mkMock [0; 0; 0] [[0; 5]; [0; 5]; [0; 5]]) 0 [] [] 90 [] in
  map snd (polls 3 m) = repeat 5 3 /\
  map fst (polls 3 m) = [true; false; false].
Proof.
  cbv zeta.
  assert (Hstuck : map snd (polls 3 (mkMachine
                      (mkMock [0; 0; 0] [[0; 5]; [0; 5]; [0; 5]]) 0 [] [] 90 []))
                   = repeat 5 3) by (vm_compute; reflexivity).
  split; [exact Hstuck |].
  exact (proj2 (isNewDataAvailable_silent 2 _) 5 Hstuck).
Defined.

Lemma wait_new_data_hangs_witness :
  never_falls (lastProgress (boot tt)) (map snd (polls 3 (boot tt))) /\
  result (wait_new_data 3 (boot tt)) = false.
Proof.
  assert (Hflat : never_falls (lastProgress (boot tt)) (map snd (polls 3 (boot tt))))
    by (vm_compute; repeat split; discriminate).
  split; [exact Hflat |].
  apply (wait_new_data_hangs 3 (boot tt) Hflat).
Defined.

(** ** A bus on which every transmission fails *)

Section DeadBus.

Context {D : Type} `{Transport D}.

Hypothesis always_fails :
  forall d addr bytes stop, to_u8 (fst (transmit d addr bytes stop)) <> 0.

Lemma read_exchange_dead (a : Z) (d : D) :
  exists d' st, st <> 0 /\
    read_exchange a d = (0xFFFF, d', [addr_phase a st], None).
Proof.
  unfold read_exchange.
  pose proof (always_fails d MLX90642_ADDR (word_bytes a) false) as Hst.
  destruct (transmit d MLX90642_ADDR (word_bytes a) false) as [st d1].
  cbn [fst] in Hst.
  destruct (Z.eqb_spec (to_u8 st) 0) as [| _]; [contradiction |].
  exists d1, (to_u8 st). split; [exact Hst | reflexivity].
Qed.

Lemma polls_dead (n : nat) (m : Machine D) :
  Forall (fun p => p = 0xFFFF) (map snd (polls n m)).
Proof.
  revert m. induction n as [| n IH]; intros m; [constructor |].
  cbn [polls map snd]. rewrite isNewDataAvailable_exchange.
  destruct (read_exchange_dead 0x3C10 (device m)) as (d' & st & _ & ->).
  cbn [final snd lastProgress]. constructor; [reflexivity | apply IH].
Qed.

Lemma never_falls_constant (last c : Z) (l : list Z) :
  last <= c -> Forall (fun p => p = c) l -> never_falls last l.
Proof.
  intros Hle Hall. revert last Hle.
  induction Hall as [| p l -> _ IH]; intros last Hle; [exact I |].
  split; [exact Hle | apply IH; lia].
Qed.

(** X10. With no device answering (every transmission completes with a
    non-zero status) every register read yields 0xFFFF, [setRefreshRate]
    fails for every rate code without writing, and the wait of [loop()]
    is never left: the sketch blocks for good. *)
Theorem dead_bus (m : Machine D) :
  0 <= lastProgress m <= 0xFFFF ->
  (forall a, result (readAddr_unsigned a m) = 0xFFFF /\
             result (readAddr_signed a m) = -1) /\
  (forall rate, 0 <= rate < 256 ->
     result (setRefreshRate rate m) = false /\
     Forall (fun e => is_eeprom_write e = false)
       (events m (setRefreshRate rate m))) /\
  (forall fuel, result (wait_new_data fuel m) = false).
Proof.
  intros Hlast.
  assert (Hread : forall a m0, result (readAddr_unsigned a m0) = 0xFFFF).
  { intros a m0. rewrite readAddr_unsigned_exchange.
    destruct (read_exchange_dead a (device m0)) as (d' & st & _ & ->).
    reflexivity. }
  split; [| split].
  - intros a. split; [apply Hread |].
    destruct (readAddr_signed_unsigned a m) as [_ ->].
    rewrite Hread. reflexivity.
  - intros rate Hrate.
    destruct (Z_le_dec 2 rate) as [H2 |]; [destruct (Z_le_dec rate 5) as [H5 |] |].
    + rewrite (setRefreshRate_stages rate m) by lia.
      rewrite Hread. cbn [Z.eqb Pos.eqb result fst].
      split; [reflexivity |].
      destruct (readAddr_unsigned_run 0x11F0 m) as (evs & Htr & Hrun & _).
      unfold events. cbn [final snd]. fold (final (readAddr_unsigned 0x11F0 m)).
      rewrite Htr, drop_app_length. eapply spec_read_no_write, Hrun.
    + unfold setRefreshRate. rewrite setRefreshRate_guard_invalid by lia.
      unfold events, ret. cbn [result final fst snd]. rewrite drop_all.
      split; [reflexivity | constructor].
    + unfold setRefreshRate. rewrite setRefreshRate_guard_invalid by lia.
      unfold events, ret. cbn [result final fst snd]. rewrite drop_all.
      split; [reflexivity | constructor].
  - intros fuel. rewrite wait_new_data_result.
    assert (Hsilent : map fst (polls fuel m) = repeat false fuel).
    { rewrite polls_wraps.
      pose proof (never_falls_constant (lastProgress m) 0xFFFF
                    (map snd (polls fuel m)) ltac:(lia) (polls_dead fuel m))
        as Hflat.
      apply spec_wraps_never_falls in Hflat.
      rewrite length_map, polls_length in Hflat. exact Hflat. }
    rewrite Hsilent. clear. induction fuel as [| fuel IH]; [reflexivity |].
    cbn [repeat existsb id orb]. exact IH.
Qed.

End DeadBus.

Lemma dead_bus_witness :
  (forall d addr bytes stop,
      to_u8 (fst (@transmit unit Absent_transport d addr bytes stop)) <> 0) /\
  0 <= lastProgress (boot tt) <= 0xFFFF /\
  result (setRefreshRate 4 (boot tt)) = false /\
  result (wait_new_data 100 (boot tt)) = false.
Proof.
  assert (Hdead : forall d addr bytes stop,
             to_u8 (fst (@transmit unit Absent_transport d addr bytes stop)) <> 0)
    by (intros; vm_compute; discriminate).
  assert (Hlast : 0 <= lastProgress (boot tt) <= 0xFFFF) by (cbn; lia).
  split; [exact Hdead |]. split; [exact Hlast |].
  destruct (dead_bus Hdead (boot tt) Hlast) as (_ & Hrate & Hwait).
  split; [apply (Hrate 4); lia | apply Hwait].
Defined.

(** ** What the read operations put on the bus *)

Lemma is_read_event_harmless (e : BusEvent) :
  is_read_event e = true -> is_eeprom_write e = false /\ is_delay e = false.
Proof.
  destruct e as [addr bytes stop st | addr q rx | ms]; cbn; try discriminate.
  - destruct bytes as [| b1 [| b2 [| b3 bytes]]]; try discriminate.
    intros _. split; reflexivity.
  - intros _. split; reflexivity.
Qed.

Lemma spec_read_events a evs v :
  spec_read a evs v ->
  Forall (fun e => is_read_event e = true) evs /\ (1 <= length evs <= 2)%nat.
Proof. destruct 1; (split; [repeat constructor | cbn; lia]). Qed.

Lemma spec_frame_reads_events i raws evs :
  spec_frame_reads i raws evs ->
  Forall (fun e => is_read_event e = true) evs /\
  (length raws <= length evs <= 2 * length raws)%nat.
Proof.
  induction 1 as [i | i v evs raws evs' Hread _ [IHall IHlen]].
  - split; [constructor | cbn; lia].
  - destruct (spec_read_events _ _ _ Hread) as [Hall Hlen].
    split; [apply Forall_app; split; assumption |].
    rewrite length_app. cbn [length]. lia.
Qed.

Section ReadTraffic.

Context {D : Type} `{Transport D}.

Lemma read_pixels_run (n k : nat) (m : Machine D) :
  (k + n <= Z.to_nat NUM_PIXELS)%nat ->
  exists evs,
    trace (snd (read_pixels n (Z.of_nat k) m)) = trace m ++ evs /\
    spec_frame_reads (Z.of_nat k) (fst (read_pixels n (Z.of_nat k) m)) evs /\
    lastProgress (snd (read_pixels n (Z.of_nat k) m)) = lastProgress m.
Proof.
  revert k m. induction n as [| n IH]; intros k m Hk.
  - exists []. cbn [read_pixels fst snd]. rewrite app_nil_r.
    split; [reflexivity |]. split; [constructor | reflexivity].
  - cbn [read_pixels fst snd].
    destruct (readAddr_signed_unsigned (pix_addr (Z.of_nat k)) m) as [-> ->].
    destruct (readAddr_unsigned_run (pix_addr (Z.of_nat k)) m)
      as (evs1 & Htr1 & Hrun1 & Hlp1).
    assert (Haddr : pix_addr (Z.of_nat k) = FRAME_ADDR + 2 * Z.of_nat k).
    { unfold pix_addr, NUM_PIXELS, FRAME_ADDR in *. rewrite Z.geb_leb.
      destruct (Z.leb_spec 768 (Z.of_nat k)); [lia |].
      rewrite to_u16_small by lia. lia. }
    rewrite Haddr in *.
    set (m1 := final (readAddr_unsigned (FRAME_ADDR + 2 * Z.of_nat k) m)) in *.
    replace (Z.of_nat k + 1) with (Z.of_nat (S k)) by lia.
    destruct (IH (S k) m1 ltac:(lia)) as (evs2 & Htr2 & Hrun2 & Hlp2).
    exists (evs1 ++ evs2).
    split; [rewrite Htr2, Htr1, <- app_assoc; reflexivity |].
    split; [| rewrite Hlp2; exact Hlp1].
    eapply frame_reads_pixel; [exact Hrun1 |].
    replace (Z.of_nat k + 1) with (Z.of_nat (S k)) by lia. exact Hrun2.
Qed.

(** X11. [readTempC] reads each pixel once and nothing else: the events
    it adds to the bus are, pixel after pixel from index 0 to 767, one
    exchange at address [0x342C + 2 * i], so between 768 and 1536 events,
    each an address phase or a request: no retry, no EEPROM write, no
    delay; and [lastProgress] is left alone. *)
Theorem readTempC_bus (Tram : list spec_float) (m : Machine D) :
  (Z.to_nat NUM_PIXELS <= length Tram)%nat ->
  let r := readTempC Tram m in
  let raws := fst (read_pixels (Z.to_nat NUM_PIXELS) 0 m) in
  spec_frame_reads 0 raws (events m r) /\
  (768 <= length (events m r) <= 1536)%nat /\
  Forall (fun e => is_read_event e = true) (events m r) /\
  Forall (fun e => is_eeprom_write e = false) (events m r) /\
  lastProgress (final r) = lastProgress m.
Proof.
  intros Hlen. cbv zeta. unfold readTempC.
  pose proof (readTempC_from_spec (Z.to_nat NUM_PIXELS) 0 Tram m) as Hspec.
  pose proof (read_pixels_run (Z.to_nat NUM_PIXELS) 0 m) as Hrun.
  pose proof (read_pixels_length (Z.to_nat NUM_PIXELS) 0 m) as Hraws.
  change (Z.of_nat 0) with 0 in Hspec, Hrun.
  assert (HN : Z.to_nat NUM_PIXELS = 768%nat) by reflexivity.
  revert Hlen HN Hraws Hspec Hrun. generalize (Z.to_nat NUM_PIXELS) as N.
  intros N Hlen HN Hraws Hspec Hrun.
  rewrite Hspec by (cbn [Nat.add]; lia). clear Hspec.
  destruct (Hrun ltac:(cbn [Nat.add]; lia)) as (evs & Htr & Hreads & Hlp).
  clear Hrun. unfold events. cbn [final snd]. rewrite Htr, drop_app_length.
  destruct (spec_frame_reads_events _ _ _ Hreads) as [Hall Hcount].
  split; [exact Hreads |]. split; [lia |]. split; [exact Hall |].
  split; [| exact Hlp].
  eapply Forall_impl; [exact Hall |].
  intros e He. apply is_read_event_harmless, He.
Qed.

(** X12. The polling and temperature reads never touch the EEPROM:
    whatever the device answers, [readAddr_unsigned], [readAddr_signed],
    [isNewDataAvailable] and [readTa] put exactly one address phase on the
    bus, for the register concerned, followed, only when it was
    acknowledged, by exactly one request for two bytes: the events of one
    exchange with the device, never a second address phase, never the
    configuration command and never a delay. *)
Theorem reads_put_only_reads (a : Z) (m : Machine D) :
  let one_exchange (a0 : Z) (evs : list BusEvent) :=
    evs = snd (fst (read_exchange a0 (device m))) /\
    ((exists st, st <> 0 /\ evs = [addr_phase a0 st]) \/
     (exists rx, (length rx <= 2)%nat /\
                 evs = [addr_phase a0 0; EvRequest MLX90642_ADDR 2 rx])) /\
    Forall (fun e => is_read_event e = true /\ is_eeprom_write e = false /\
                     is_delay e = false) evs /\
    (1 <= length evs <= 2)%nat in
  one_exchange a (events m (readAddr_unsigned a m)) /\
  one_exchange a (events m (readAddr_signed a m)) /\
  one_exchange 0x3C10 (events m (isNewDataAvailable m)) /\
  one_exchange 0x3A2C (events m (readTa m)).
Proof.
  cbv zeta.
  assert (Hone : forall a0,
            events m (readAddr_unsigned a0 m) =
              snd (fst (read_exchange a0 (device m))) /\
            ((exists st, st <> 0 /\
                events m (readAddr_unsigned a0 m) = [addr_phase a0 st]) \/
             (exists rx, (length rx <= 2)%nat /\
                events m (readAddr_unsigned a0 m) =
                  [addr_phase a0 0; EvRequest MLX90642_ADDR 2 rx])) /\
            Forall (fun e => is_read_event e = true /\ is_eeprom_write e = false /\
                             is_delay e = false)
              (events m (readAddr_unsigned a0 m)) /\
            (1 <= length (events m (readAddr_unsigned a0 m)) <= 2)%nat).
  { intros a0.
    assert (Hev : events m (readAddr_unsigned a0 m) =
                  snd (fst (read_exchange a0 (device m)))).
    { unfold events. rewrite readAddr_unsigned_exchange.
      destruct (read_exchange a0 (device m)) as [[[v d] evs] rx].
      cbn [final fst snd after_exchange trace]. apply drop_app_length. }
    destruct (readAddr_unsigned_run a0 m) as (evs & Htr & Hrun & _).
    rewrite <- Hev. rewrite (events_app _ _ _ Htr).
    destruct (spec_read_events _ _ _ Hrun) as [Hall Hlen].
    split; [reflexivity |]. split; [| split; [| exact Hlen]].
    - destruct Hrun as [st Hst | rx Hrx | hi lo Hhi Hlo].
      + left. exists st. split; [exact Hst | reflexivity].
      + right. exists rx. split; [lia | reflexivity].
      + right. exists [hi; lo]. split; [cbn; lia | reflexivity].
    - eapply Forall_impl; [exact Hall |].
      intros e He. split; [exact He | apply is_read_event_harmless, He]. }
  assert (Hsigned : forall a0,
            events m (readAddr_signed a0 m) = events m (readAddr_unsigned a0 m)).
  { intros a0. unfold events.
    destruct (readAddr_signed_unsigned a0 m) as [-> _]. reflexivity. }
  split; [apply Hone |]. split; [rewrite Hsigned; apply Hone |]. split.
  - replace (events m (isNewDataAvailable m))
      with (events m (readAddr_unsigned 0x3C10 m)); [apply Hone |].
    unfold events. rewrite isNewDataAvailable_once. reflexivity.
  - replace (events m (readTa m)) with (events m (readAddr_signed 0x3A2C m));
      [rewrite Hsigned; apply Hone |].
    unfold events, readTa, bind, ret.
    destruct (readAddr_signed 0x3A2C m) as [raw m1]. reflexivity.
Qed.

(** X13. [readTa] has no error value: when the read fails it returns the
    float nearest to -0.01, exactly what a register holding -1 gives. *)
Theorem readTa_failure (m : Machine D) :
  read_failed (events m (readTa m)) = true ->
  result (readTa m) = S754_finite true 10737418 (-30) /\
  F32.rounds (result (readTa m)) (-1) 100 = true /\
  result (readTa m) = F32.div (F32.of_int (-1)) (F32.of_int 100).
Proof.
  intros Hfail.
  assert (Hraw : result (readAddr_signed 0x3A2C m) = -1).
  { destruct (readAddr_signed_unsigned 0x3A2C m) as [Hfin Hres].
    destruct (readAddr_unsigned_run 0x3A2C m) as (evs & Htr & Hrun & _).
    assert (Hev : events m (readTa m) = evs).
    { unfold events, readTa, bind, ret.
      destruct (readAddr_signed 0x3A2C m) as [raw m1].
      cbn [final snd] in *. rewrite Hfin, Htr. apply drop_app_length. }
    rewrite Hev in Hfail.
    rewrite Hres, (spec_read_failed _ _ _ Hrun Hfail). reflexivity. }
  unfold readTa, bind, ret in *.
  destruct (readAddr_signed 0x3A2C m) as [raw m1].
  cbn [result fst] in *. subst raw. repeat split; reflexivity.
Qed.

End ReadTraffic.

Lemma readTempC_bus_witness :
  let Tram := repeat (S754_zero false) 768 in
  (Z.to_nat NUM_PIXELS <= length Tram)%nat /\
  (768 <= length (events (boot mock_all_250)
                    (readTempC Tram (boot mock_all_250))) <= 1536)%nat.
Proof.
  cbv zeta.
  assert (Hlen : (Z.to_nat NUM_PIXELS <= length (repeat (S754_zero false) 768))%nat)
    by (rewrite repeat_length; vm_compute; lia).
  split; [exact Hlen |].
  exact (proj1 (proj2 (readTempC_bus _ (boot mock_all_250) Hlen))).
Defined.

Lemma readTa_failure_witness :
  read_failed (events (boot (mkMock [2] [])) (readTa (boot (mkMock [2] [])))) = true /\
  result (readTa (boot (mkMock [2] []))) = S754_finite true 10737418 (-30).
Proof.
  assert (Hfail : read_failed (events (boot (mkMock [2] []))
                                 (readTa (boot (mkMock [2] [])))) = true)
    by (vm_compute; reflexivity).
  split; [exact Hfail |].
  exact (proj1 (readTa_failure (boot (mkMock [2] [])) Hfail)).
Defined.

(** ** The EEPROM writes of [setRefreshRate] *)

Lemma filter_no_write (evs : list BusEvent) :
  Forall (fun e => is_eeprom_write e = false) evs ->
  List.filter is_eeprom_write evs = [].
Proof.
  induction 1 as [| e evs He _ IH]; [reflexivity |].
  cbn [List.filter]. rewrite He. exact IH.
Qed.

Lemma with_rate_keep (ctrl : Z) :
  0 <= ctrl < 65536 -> with_rate ctrl (Z.land ctrl 0x07) = ctrl.
Proof.
  intros Hc. change 7 with (Z.ones 3). rewrite Z.land_ones by lia.
  change (2 ^ 3) with 8.
  pose proof (Z.mod_pos_bound ctrl 8 ltac:(lia)).
  rewrite with_rate_value by lia. symmetry. apply Z.div_mod. lia.
Qed.

Section RateWrites.

Context {D : Type} `{Transport D}.

(** X14. A call of [setRefreshRate] with a valid rate writes the EEPROM at
    most once: not at all when the first read yields 0xFFFF, and otherwise
    exactly once, at 0x11F0, also when the word read already holds the
    requested rate (the word written is then the word read) and also when
    the call goes on to fail.  A call that succeeds had its write
    acknowledged.  [lastProgress] is left alone. *)
Theorem setRefreshRate_writes (rate : Z) (m : Machine D) :
  2 <= rate <= 5 ->
  let c := result (readAddr_unsigned 0x11F0 m) in
  let r := setRefreshRate rate m in
  let writes := List.filter is_eeprom_write (events m r) in
  (c = 0xFFFF -> writes = []) /\
  (c <> 0xFFFF ->
   exists st, writes = [eeprom_write 0x11F0 (with_rate c rate) st] /\
              (result r = true -> st = 0)) /\
  (Z.land c 0x07 = rate -> with_rate c rate = c) /\
  lastProgress (final r) = lastProgress m.
Proof.
  intros Hr. cbv zeta.
  rewrite (setRefreshRate_stages rate m Hr).
  destruct (readAddr_unsigned_run 0x11F0 m) as (evs1 & Ht1 & Hrun1 & Hlp1).
  pose proof (spec_read_range _ _ _ Hrun1) as Hc.
  pose proof (filter_no_write _ (spec_read_no_write _ _ _ Hrun1)) as Hf1.
  set (r1 := readAddr_unsigned 0x11F0 m) in *.
  set (w := with_rate (result r1) rate).
  destruct (writeEEPROM_run 0x11F0 w (final r1)) as (st & Hok & Ht2 & Hlp2).
  set (r2 := writeEEPROM 0x11F0 w (final r1)) in *.
  destruct (delay_run 20 (final r2)) as [Htd Hlpd].
  destruct (readAddr_unsigned_run 0x11F0 (final (delay 20 (final r2))))
    as (evs3 & Ht3 & Hrun3 & Hlp3).
  pose proof (filter_no_write _ (spec_read_no_write _ _ _ Hrun3)) as Hf3.
  set (r3 := readAddr_unsigned 0x11F0 (final (delay 20 (final r2)))) in *.
  assert (Hkeep : Z.land (result r1) 7 = rate -> w = result r1).
  { intros <-. apply with_rate_keep, Hc. }
  unfold events.
  destruct (Z.eqb_spec (result r1) 0xFFFF) as [Hsent | Hword].
  { cbn [result final fst snd].
    rewrite Ht1, drop_app_length.
    split; [intros _; exact Hf1 |]. split; [contradiction |].
    split; [exact Hkeep | exact Hlp1]. }
  split; [contradiction |].
  rewrite Hok.
  destruct (Z.eqb_spec st 0) as [Hst | Hst]; cbn [negb].
  - destruct (result r3 =? 0xFFFF); cbn [result final fst snd];
      (split; [| split; [exact Hkeep | rewrite Hlp3, Hlpd, Hlp2; exact Hlp1]]);
      intros _; exists st;
      rewrite Ht3, Htd, Ht2, Ht1, <- !app_assoc, drop_app_length;
      rewrite !List.filter_app, Hf1, Hf3; subst st;
      (split; [reflexivity | intros _; reflexivity]).
  - cbn [result final fst snd].
    split; [| split; [exact Hkeep | rewrite Hlp2; exact Hlp1]].
    intros _. exists st.
    rewrite Ht2, Ht1, <- !app_assoc, drop_app_length.
    rewrite List.filter_app, Hf1.
    split; [reflexivity | discriminate].
Qed.

End RateWrites.

Lemma setRefreshRate_writes_witness :
  let m := boot (mkMock [0; 0; 0] [[0x12; 0x34]; [0x12; 0x34]]) in
  2 <= 4 <= 5 /\
  result (readAddr_unsigned 0x11F0 m) <> 0xFFFF /\
  Z.land (result (readAddr_unsigned 0x11F0 m)) 0x07 = 4 /\
  exists st,
    List.filter is_eeprom_write (events m (setRefreshRate 4 m)) =
      [eeprom_write 0x11F0 (with_rate (result (readAddr_unsigned 0x11F0 m)) 4) st].
Proof.
  cbv zeta. split; [lia |].
  split; [vm_compute; discriminate |]. split; [vm_compute; reflexivity |].
  destruct (setRefreshRate_writes 4
              (boot (mkMock [0; 0; 0] [[0x12; 0x34]; [0x12; 0x34]]))
              ltac:(lia)) as (_ & Hwrite & _).
  destruct Hwrite as (st & Hw & _); [vm_compute; discriminate |].
  exists st. exact Hw.
Defined.

(** ** Frame output: when it stays in bounds, and when it is complete *)

Section PrintFrameBounds.

Variable format_1f : spec_float -> list ascii.

Lemma store_past_end {A} (a : list A) (i : Z) (v : A) :
  Z.of_nat (length a) <= i -> store a i v = None.
Proof.
  intros Hi. unfold store.
  destruct (Z.ltb_spec i (Z.of_nat (length a))); [lia |].
  rewrite andb_false_r. reflexivity.
Qed.

(** The loop again, under the weakest condition: the index it leaves is
    inside the array. *)
Lemma printFrame_from_content (Tdat : list spec_float) (todo k p : nat)
      (buf : list ascii) :
  length buf = Z.to_nat FRAME_BUFFER_SIZE ->
  Z.of_nat p < FRAME_BUFFER_SIZE - 10 ->
  (k + todo <= length Tdat)%nat ->
  let line := spec_line format_1f (Z.of_nat p) (take todo (drop k Tdat)) in
  Z.of_nat (p + length line) < FRAME_BUFFER_SIZE ->
  exists buf',
    printFrame_from format_1f todo (Z.of_nat k) (Z.of_nat p) buf Tdat =
      Some (Z.of_nat (p + length line), buf') /\
    length buf' = length buf /\
    take (p + length line) buf' = take p buf ++ line.
Proof.
  revert k p buf. induction todo as [| todo IH]; intros k p buf Hbuf Hp Hk.
  - cbn. intros _. exists buf. rewrite Nat.add_0_r, app_nil_r.
    split; [reflexivity |]. split; reflexivity.
  - destruct (lookup_lt_is_Some_2 Tdat k ltac:(lia)) as [x Hx].
    rewrite (drop_S _ _ _ Hx). cbn [take].
    cbn [printFrame_from spec_line]. rewrite Nat2Z.id, Hx.
    cbn [mbind option_bind].
    assert (HN : Z.of_nat (length buf) = FRAME_BUFFER_SIZE)
      by (rewrite Hbuf; reflexivity).
    rewrite <- HN.
    rewrite snprintf_rest by (unfold FRAME_BUFFER_SIZE in *; lia).
    cbn [mbind option_bind].
    assert (Hpos : (1 <= length (field format_1f x))%nat) by (cbn; lia).
    destruct (Z.leb_spec (Z.of_nat (length (field format_1f x))) 0); [lia |].
    rewrite HN, !Z.geb_leb.
    set (buf1 := blit buf p (take (length buf - p - 1) (field format_1f x) ++ [NUL])).
    assert (Hbuf1 : length buf1 = length buf).
    { apply blit_length. rewrite length_app, length_take. cbn [length].
      unfold FRAME_BUFFER_SIZE in *. lia. }
    rewrite <- Nat2Z.inj_add.
    destruct (Z.leb_spec (FRAME_BUFFER_SIZE - 10)
                (Z.of_nat (p + length (field format_1f x)))) as [Hstop | Hgo].
    + rewrite app_nil_r. intros Hin.
      exists buf1. split; [reflexivity |]. split; [exact Hbuf1 |].
      unfold buf1. rewrite (take_ge (field format_1f x)) by lia.
      apply blit_take. lia.
    + rewrite length_app, Nat.add_assoc. intros Hin.
      replace (Z.of_nat k + 1) with (Z.of_nat (S k)) by lia.
      destruct (IH (S k) (p + length (field format_1f x))%nat buf1)
        as (buf' & Hrun & Hlen & Htake); [lia | exact Hgo | lia | exact Hin |].
      exists buf'. split; [exact Hrun |]. split; [lia |].
      rewrite Htake. unfold buf1.
      rewrite (take_ge (field format_1f x)) by lia.
      rewrite blit_take by lia. rewrite <- app_assoc. reflexivity.
Qed.

(** X15. The exact bound of [printFrame]: with a 6000-byte [frameBuffer]
    and a frame of at least 768 entries, every access stays inside the
    buffer exactly when the line (all fields up to the one that reaches
    5990 characters) has at most 5998 characters.  Then the line and a
    newline are sent, untruncated, and the buffer holds them followed by
    NUL; otherwise the newline or the NUL is stored past the end. *)
Theorem printFrame_in_bounds (frameBuffer : list ascii) (Tdat : list spec_float) :
  length frameBuffer = Z.to_nat FRAME_BUFFER_SIZE ->
  (Z.to_nat NUM_PIXELS <= length Tdat)%nat ->
  let line := spec_line format_1f 0 (take (Z.to_nat NUM_PIXELS) Tdat) in
  (Z.of_nat (length line) <= 5998 ->
   exists frameBuffer',
     printFrame format_1f frameBuffer Tdat = Some (frameBuffer', line ++ [LF]) /\
     length frameBuffer' = length frameBuffer /\
     take (length line + 2) frameBuffer' = line ++ [LF; NUL]) /\
  (5998 < Z.of_nat (length line) ->
   printFrame format_1f frameBuffer Tdat = None).
Proof.
  intros Hbuf Hlen. cbv zeta. unfold printFrame.
  revert Hlen. generalize (Z.to_nat NUM_PIXELS) as N. intros N Hlen.
  assert (HF : FRAME_BUFFER_SIZE = 6000) by reflexivity.
  split.
  - intros Hfit.
    destruct (printFrame_from_content Tdat N 0 0 frameBuffer Hbuf)
      as (buf1 & Hrun & Hlen1 & Htake);
      [lia | lia
      | rewrite drop_0; change (Z.of_nat 0) with 0; cbn [Nat.add]; lia |].
    rewrite drop_0 in Hrun, Htake. rewrite take_0 in Htake.
    cbn [Nat.add app] in Hrun, Htake. change (Z.of_nat 0) with 0 in Hrun, Htake.
    set (line := spec_line format_1f 0 (take N Tdat)) in *.
    assert (HN : Z.of_nat (length buf1) = 6000)
      by (rewrite Hlen1, Hbuf; reflexivity).
    exists (<[S (length line) := NUL]> (<[length line := LF]> buf1)).
    split; [| split].
    + rewrite Hrun. cbn [mbind option_bind].
      rewrite store_in_range by lia. cbn [mbind option_bind].
      replace (Z.of_nat (length line) + 1) with (Z.of_nat (S (length line))) by lia.
      rewrite store_in_range by (rewrite length_insert; lia).
      cbn [mbind option_bind]. rewrite Nat2Z.id.
      f_equal. f_equal.
      rewrite take_insert_ge by lia.
      rewrite (take_S_r _ _ LF) by (apply list_lookup_insert_eq; lia).
      rewrite take_insert_ge by lia. rewrite Htake. reflexivity.
    + rewrite !length_insert. exact Hlen1.
    + replace (length line + 2)%nat with (S (S (length line))) by lia.
      rewrite (take_S_r _ _ NUL)
        by (apply list_lookup_insert_eq; rewrite length_insert; lia).
      rewrite take_insert_ge by lia.
      rewrite (take_S_r _ _ LF) by (apply list_lookup_insert_eq; lia).
      rewrite take_insert_ge by lia. rewrite Htake, <- app_assoc. reflexivity.
  - intros Hover.
    destruct (printFrame_from_spec format_1f Tdat N 0 0 frameBuffer Hbuf)
      as (buf1 & Hrun & Hlen1 & _); [lia | lia |].
    rewrite drop_0 in Hrun. cbn [Nat.add] in Hrun.
    change (Z.of_nat 0) with 0 in Hrun.
    set (line := spec_line format_1f 0 (take N Tdat)) in *.
    assert (HN : Z.of_nat (length buf1) = 6000)
      by (rewrite Hlen1, Hbuf; reflexivity).
    rewrite Hrun. cbn [mbind option_bind].
    destruct (Z_lt_dec (Z.of_nat (length line)) 6000) as [Hlf | Hlf].
    + rewrite store_in_range by lia. cbn [mbind option_bind].
      rewrite store_past_end by (rewrite length_insert; lia). reflexivity.
    + rewrite store_past_end by lia. reflexivity.
Qed.

(** X16. A frame whose fields have at most 7 characters each, as
    [",-655.4"], is printed whole: all 768 pixels, in order, then the
    newline, at most 5377 characters; the early stop never triggers. *)
Theorem printFrame_whole_frame (frameBuffer : list ascii) (Tdat : list spec_float) :
  length frameBuffer = Z.to_nat FRAME_BUFFER_SIZE ->
  (Z.to_nat NUM_PIXELS <= length Tdat)%nat ->
  Forall (fun x => (length (field format_1f x) <= 7)%nat)
    (take (Z.to_nat NUM_PIXELS) Tdat) ->
  exists frameBuffer' text,
    printFrame format_1f frameBuffer Tdat = Some (frameBuffer', text) /\
    text = concat (map (field format_1f) (take (Z.to_nat NUM_PIXELS) Tdat)) ++ [LF] /\
    Z.of_nat (length text) <= 5377.
Proof.
  intros Hbuf Hlen Hall.
  assert (Hall9 : Forall (fun x => (length (field format_1f x) <= 9)%nat)
                    (take (Z.to_nat NUM_PIXELS) Tdat)).
  { eapply Forall_impl; [exact Hall |]. cbn. intros x Hx. lia. }
  destruct (printFrame_line format_1f frameBuffer Tdat Hbuf Hlen Hall9)
    as (buf' & Hrun & _).
  exists buf'. eexists. split; [exact Hrun |].
  assert (HN : Z.to_nat NUM_PIXELS = 768%nat) by reflexivity.
  revert Hlen Hall HN. clear Hall9 Hrun.
  generalize (Z.to_nat NUM_PIXELS) as N. intros N Hlen Hall HN.
  destruct (spec_line_fields format_1f 0 (take N Tdat))
    as (n & Hn & Hline & Hfull & _).
  rewrite length_take in Hn, Hfull.
  assert (Hshort : (length (spec_line format_1f 0 (take N Tdat)) <= 7 * n)%nat).
  { rewrite Hline.
    pose proof (concat_fields_length format_1f (take n (take N Tdat)) 7
                  (Forall_take _ _ _ Hall)) as Hc.
    rewrite !length_take in Hc. lia. }
  assert (Hn' : n = N).
  { destruct Hfull as [-> | Hfull]; [lia |].
    unfold FRAME_BUFFER_SIZE in Hfull. lia. }
  subst n. rewrite length_app. cbn [length].
  split; [| lia].
  rewrite Hline, take_take, Nat.min_id. reflexivity.
Qed.

End PrintFrameBounds.

Lemma printFrame_in_bounds_witness :
  length fresh_buffer = Z.to_nat FRAME_BUFFER_SIZE /\
  (Z.to_nat NUM_PIXELS <= length frame_wide)%nat /\
  5998 < Z.of_nat (length (spec_line Libc.format_1f 0
                             (take (Z.to_nat NUM_PIXELS) frame_wide))) /\
  printFrame Libc.format_1f fresh_buffer frame_wide = None.
Proof.
  assert (Hbuf : length fresh_buffer = Z.to_nat FRAME_BUFFER_SIZE)
    by apply repeat_length.
  assert (Hlen : (Z.to_nat NUM_PIXELS <= length frame_wide)%nat)
    by (unfold frame_wide; rewrite repeat_length; vm_compute; lia).
  assert (Hover : 5998 < Z.of_nat (length (spec_line Libc.format_1f 0
                                             (take (Z.to_nat NUM_PIXELS) frame_wide))))
    by (vm_compute; reflexivity).
  split; [exact Hbuf |]. split; [exact Hlen |]. split; [exact Hover |].
  exact (proj2 (printFrame_in_bounds Libc.format_1f fresh_buffer frame_wide
                  Hbuf Hlen) Hover).
Defined.

Lemma printFrame_whole_frame_witness :
  let Tdat := repeat (F32.literal 2345 2) 768 in
  length fresh_buffer = Z.to_nat FRAME_BUFFER_SIZE /\
  (Z.to_nat NUM_PIXELS <= length Tdat)%nat /\
  Forall (fun x => (length (field Libc.format_1f x) <= 7)%nat)
    (take (Z.to_nat NUM_PIXELS) Tdat) /\
  exists frameBuffer',
    printFrame Libc.format_1f fresh_buffer Tdat =
      Some (frameBuffer',
            concat (map (field Libc.format_1f) (take (Z.to_nat NUM_PIXELS) Tdat))
            ++ [LF]).
Proof.
  cbv zeta.
  assert (Hbuf : length fresh_buffer = Z.to_nat FRAME_BUFFER_SIZE)
    by apply repeat_length.
  assert (Hlen : (Z.to_nat NUM_PIXELS <= length (repeat (F32.literal 2345 2) 768))%nat)
    by (rewrite repeat_length; vm_compute; lia).
  assert (Hall : Forall (fun x => (length (field Libc.format_1f x) <= 7)%nat)
                   (take (Z.to_nat NUM_PIXELS) (repeat (F32.literal 2345 2) 768))).
  { apply Forall_take, Forall_forall. intros x Hx.
    apply list_elem_of_In, repeat_spec in Hx. subst x. vm_compute. lia. }
  split; [exact Hbuf |]. split; [exact Hlen |]. split; [exact Hall |].
  destruct (printFrame_whole_frame Libc.format_1f fresh_buffer _ Hbuf Hlen Hall)
    as (buf' & text & Hrun & -> & _).
  exists buf'. exact Hrun.
Defined.

(** ** The driver against a device that follows the protocol *)

Section SensorDevice.

Lemma sensor_read (a : Z) (d : Sensor) :
  0 <= a < 65536 -> 0 <= registers d !!! a < 65536 ->
  read_exchange a d =
    (registers d !!! a, mkSensor (registers d) a,
     [addr_phase a 0;
      EvRequest MLX90642_ADDR 2 (word_bytes (registers d !!! a))],
     Some []).
Proof.
  intros Ha Hw. unfold read_exchange.
  rewrite (word_bytes_value a Ha).
  cbn [transmit Sensor_transport request registers selected].
  change (to_u8 0 =? 0) with true. cbn [negb].
  assert (Hhi : 0 <= a / 256 < 256).
  { split; [apply Z.div_pos; lia | apply Z.div_lt_upper_bound; lia]. }
  pose proof (Z.mod_pos_bound a 256 ltac:(lia)) as Hlo.
  replace (a / 256 * 256 + a mod 256) with a
    by (rewrite (Z.div_mod a 256) at 1 by lia; lia).
  set (w := registers d !!! a) in *.
  assert (Hwhi : 0 <= w / 256 < 256).
  { split; [apply Z.div_pos; lia | apply Z.div_lt_upper_bound; lia]. }
  pose proof (Z.mod_pos_bound w 256 ltac:(lia)) as Hwlo.
  change (take 2 (map to_u8 [w / 256; w mod 256]))
    with [to_u8 (w / 256); to_u8 (w mod 256)].
  rewrite !to_u8_small by lia.
  rewrite (word_bytes_value w Hw).
  replace (w / 256 * 256 + w mod 256) with w
    by (rewrite (Z.div_mod w 256) at 1 by lia; lia).
  reflexivity.
Qed.

Lemma sensor_write (a v : Z) (m : Machine Sensor) :
  0 <= a < 65536 -> 0 <= v < 65536 ->
  result (writeEEPROM a v m) = true /\
  device (final (writeEEPROM a v m)) =
    mkSensor (<[a := v]> (registers (device m))) (selected (device m)).
Proof.
  intros Ha Hv.
  pose proof (word_bytes_value a Ha) as Hab.
  pose proof (word_bytes_value v Hv) as Hvb.
  unfold word_bytes in Hab, Hvb.
  injection Hab as Ha1 Ha2. injection Hvb as Hv1 Hv2.
  destruct m as [d ta tb rb lp tr].
  cbv [writeEEPROM bind beginTransmission write endTransmission delay ret
         result final device txAddress txBuffer rxBuffer lastProgress trace].
  cbn [app]. rewrite Ha1, Ha2, Hv1, Hv2.
  cbn [transmit Sensor_transport].
  change (to_u8 58) with 58. change (to_u8 46) with 46.
  change ((58 =? 58) && (46 =? 46)) with true. cbv iota.
  change (to_u8 0 =? 0) with true. cbn [negb fst snd].
  replace (a / 256 * 256 + a mod 256) with a
    by (rewrite (Z.div_mod a 256) at 1 by lia; lia).
  replace (v / 256 * 256 + v mod 256) with v
    by (rewrite (Z.div_mod v 256) at 1 by lia; lia).
  split; reflexivity.
Qed.

(** X17. Write then read is a round trip: on a device that follows the
    protocol, [writeEEPROM a v] succeeds and stores [v] at [a] and nowhere
    else, and a following [readAddr_unsigned a] returns [v] (and
    [readAddr_signed a] its two's-complement reading): the bytes the write
    queues are decoded by the read to the same word. *)
Theorem sensor_write_read (a v : Z) (m : Machine Sensor) :
  0 <= a < 65536 -> 0 <= v < 65536 ->
  let w := writeEEPROM a v m in
  result w = true /\
  registers (device (final w)) = <[a := v]> (registers (device m)) /\
  result (readAddr_unsigned a (final w)) = v /\
  result (readAddr_signed a (final w)) = to_i16 v.
Proof.
  intros Ha Hv. cbv zeta.
  destruct (sensor_write a v m Ha Hv) as [Hres Hdev].
  assert (Hread : result (readAddr_unsigned a (final (writeEEPROM a v m))) = v).
  { rewrite readAddr_unsigned_exchange, Hdev.
    rewrite sensor_read; cbn [registers];
      rewrite ?lookup_total_insert_eq; [reflexivity | lia | lia]. }
  split; [exact Hres |]. split; [rewrite Hdev; reflexivity |].
  split; [exact Hread |].
  destruct (readAddr_signed_unsigned a (final (writeEEPROM a v m))) as [_ ->].
  rewrite Hread. reflexivity.
Qed.

End SensorDevice.

Lemma sensor_write_read_witness :
  0 <= 0x11F0 < 65536 /\ 0 <= 0xBEEF < 65536 /\
  result (readAddr_unsigned 0x11F0
            (final (writeEEPROM 0x11F0 0xBEEF (boot (mkSensor ∅ 0))))) = 0xBEEF.
Proof.
  split; [lia |]. split; [lia |].
  exact (proj1 (proj2 (proj2 (sensor_write_read 0x11F0 0xBEEF
                                (boot (mkSensor ∅ 0)) ltac:(lia) ltac:(lia))))).
Defined.

Section SensorRate.

(** One call on the protocol-following device. *)
Lemma sensor_rate_step (rate : Z) (m : Machine Sensor) :
  2 <= rate <= 5 ->
  let c := registers (device m) !!! 0x11F0 in
  0 <= c < 65536 ->
  setRefreshRate rate m =
    (if c =? 0xFFFF
     then (false, final (readAddr_unsigned 0x11F0 m))
     else (true, final (setRefreshRate rate m))) /\
  registers (device (final (setRefreshRate rate m))) =
    (if c =? 0xFFFF then registers (device m)
     else <[0x11F0 := with_rate c rate]> (registers (device m))).
Proof.
  intros Hr c Hc.
  assert (Hr1 : readAddr_unsigned 0x11F0 m =
                (c, after_exchange m (mkSensor (registers (device m)) 0x11F0)
                      [addr_phase 0x11F0 0;
                       EvRequest MLX90642_ADDR 2 (word_bytes c)] (Some []))).
  { rewrite readAddr_unsigned_exchange, sensor_read by (fold c; lia).
    reflexivity. }
  rewrite (setRefreshRate_stages rate m Hr). rewrite Hr1.
  cbn [result final fst snd].
  destruct (Z.eqb_spec c 0xFFFF) as [Hsent | Hword]; [split; reflexivity |].
  set (m1 := after_exchange m _ _ _).
  destruct (with_rate_bits c rate Hc ltac:(lia)) as (Hw & _ & Hlow).
  pose proof (with_rate_value c rate Hc ltac:(lia)) as Hwv.
  set (w := with_rate c rate) in *.
  destruct (sensor_write 0x11F0 w m1 ltac:(lia) Hw) as [Hok Hdev2].
  rewrite Hok. cbn [negb].
  set (m2 := final (delay 20 (final (writeEEPROM 0x11F0 w m1)))).
  assert (Hdev : device m2 =
                 mkSensor (<[0x11F0 := w]> (registers (device m))) 0x11F0).
  { unfold m2. cbn [delay final snd device]. fold (final (writeEEPROM 0x11F0 w m1)).
    rewrite Hdev2. reflexivity. }
  assert (Hr3 : readAddr_unsigned 0x11F0 m2 =
                (w, after_exchange m2
                      (mkSensor (<[0x11F0 := w]> (registers (device m))) 0x11F0)
                      [addr_phase 0x11F0 0;
                       EvRequest MLX90642_ADDR 2 (word_bytes w)] (Some []))).
  { rewrite readAddr_unsigned_exchange, Hdev.
    rewrite sensor_read; cbn [registers];
      rewrite ?lookup_total_insert_eq; [reflexivity | lia | lia]. }
  rewrite Hr3. cbn [result final fst snd].
  destruct (Z.eqb_spec w 0xFFFF) as [Hbad | _].
  { exfalso. rewrite Hwv in Hbad. lia. }
  rewrite Hlow, Z.eqb_refl. split; reflexivity.
Qed.

(** X18. Against a device that follows the protocol [setRefreshRate] does
    what it is for: with a valid rate and a configuration word other than
    0xFFFF it succeeds, the word stored at 0x11F0 afterwards has the rate
    in its low three bits and its other thirteen bits as before, no other
    register changes, and a second call with the same rate succeeds again
    and stores the same word.  A configuration word that reads 0xFFFF can
    never be changed: the call fails and stores nothing. *)
Theorem sensor_setRefreshRate (rate : Z) (m : Machine Sensor) :
  2 <= rate <= 5 ->
  let c := registers (device m) !!! 0x11F0 in
  0 <= c < 65536 ->
  let r := setRefreshRate rate m in
  let r' := setRefreshRate rate (final r) in
  (c <> 0xFFFF ->
   result r = true /\
   registers (device (final r)) = <[0x11F0 := with_rate c rate]> (registers (device m)) /\
   Z.land (registers (device (final r)) !!! 0x11F0) 0x07 = rate /\
   Z.shiftr (registers (device (final r)) !!! 0x11F0) 3 = Z.shiftr c 3 /\
   result r' = true /\
   registers (device (final r')) = registers (device (final r))) /\
  (c = 0xFFFF ->
   result r = false /\ registers (device (final r)) = registers (device m)).
Proof.
  intros Hr c Hc. cbv zeta.
  destruct (sensor_rate_step rate m Hr Hc) as [Hstep Hregs]. fold c in Hstep, Hregs.
  destruct (Z.eqb_spec c 0xFFFF) as [Hsent | Hword].
  { split; [contradiction |]. intros _.
    rewrite Hstep. split; [reflexivity |]. rewrite Hstep in Hregs. exact Hregs. }
  split; [| contradiction]. intros _.
  destruct (with_rate_bits c rate Hc ltac:(lia)) as (Hw & Hhigh & Hlow).
  pose proof (with_rate_value c rate Hc ltac:(lia)) as Hwv.
  assert (Hnew : registers (device (final (setRefreshRate rate m))) !!! 0x11F0
                 = with_rate c rate).
  { rewrite Hregs. apply lookup_total_insert_eq. }
  split; [rewrite Hstep; reflexivity |]. split; [exact Hregs |].
  split; [rewrite Hnew; exact Hlow |]. split; [rewrite Hnew; exact Hhigh |].
  destruct (sensor_rate_step rate (final (setRefreshRate rate m)) Hr)
    as [Hstep' Hregs']; [rewrite Hnew; exact Hw |].
  rewrite Hnew in Hstep', Hregs'.
  destruct (Z.eqb_spec (with_rate c rate) 0xFFFF) as [Hbad | _].
  { exfalso. rewrite Hwv in Hbad. lia. }
  split; [rewrite Hstep'; reflexivity |].
  rewrite Hregs', Hregs, insert_insert_eq.
  rewrite <- Hlow at 2. rewrite with_rate_keep by exact Hw. reflexivity.
Qed.

End SensorRate.

Lemma sensor_setRefreshRate_witness :
  let m := boot (mkSensor (<[0x11F0 := 0x1235]> ∅) 0) in
  2 <= 4 <= 5 /\
  0 <= registers (device m) !!! 0x11F0 < 65536 /\
  registers (device m) !!! 0x11F0 <> 0xFFFF /\
  result (setRefreshRate 4 m) = true /\
  Z.land (registers (device (final (setRefreshRate 4 m))) !!! 0x11F0) 0x07 = 4.
Proof.
  cbv zeta.
  assert (Hc : registers (device (boot (mkSensor (<[0x11F0 := 0x1235]> ∅) 0)))
               !!! 0x11F0 = 0x1235) by apply lookup_total_insert_eq.
  split; [lia |]. rewrite Hc. split; [lia |]. split; [lia |].
  destruct (sensor_setRefreshRate 4
              (boot (mkSensor (<[0x11F0 := 0x1235]> ∅) 0)) ltac:(lia)) as [Hok _].
  { rewrite Hc. lia. }
  destruct Hok as (Hres & _ & Hlow & _); [rewrite Hc; lia |].
  split; [exact Hres | exact Hlow].
Defined.

(** ** The address map printed by [printFullPixelMap] *)

Section PixelMapProperties.

Variable print_dec : Z -> list ascii.
Variable print_hex : Z -> list ascii.

Lemma pix_addr_in_frame (i : Z) :
  0 <= i < NUM_PIXELS -> pix_addr (to_u16 i) = FRAME_ADDR + 2 * i.
Proof.
  intros Hi. unfold NUM_PIXELS in Hi.
  rewrite to_u16_small by lia.
  unfold pix_addr, NUM_PIXELS. rewrite Z.geb_leb.
  destruct (Z.leb_spec 768 i) as [Hge | _]; [lia |].
  rewrite (Z.mul_comm i 2). unfold FRAME_ADDR. apply to_u16_small. lia.
Qed.

Lemma printFullPixelMap_from_lines (todo : nat) :
  forall (s : nat) (serial : list ascii),
    (s + todo <= 768)%nat ->
    printFullPixelMap_from print_dec print_hex todo (Z.of_nat s) serial =
      serial ++ flat_map (fun k => map_line print_dec print_hex (Z.of_nat k))
                         (seq s todo).
Proof.
  induction todo as [| todo IH]; intros s serial Hend.
  - cbn [printFullPixelMap_from seq flat_map]. now rewrite app_nil_r.
  - cbn [printFullPixelMap_from]. cbv zeta.
    replace (Z.of_nat s + 1) with (Z.of_nat (S s)) by lia.
    rewrite IH by lia.
    rewrite pix_addr_in_frame by (unfold NUM_PIXELS; lia).
    cbn [seq flat_map]. unfold map_line at 2.
    rewrite <- !app_assoc. reflexivity.
Qed.

(** X19. [printFullPixelMap] prints the heading, then one line for each
    of the 768 pixels in order, line [i] carrying [i] and the address
    [0x342C + 2 i], then the closing line with the address 0x3A2A: the
    map runs from 0x342C to 0x3A2A as the source's comment expects, and
    the 0 that [pix_addr] returns for a bad index is never printed. *)
Theorem printFullPixelMap_lines (serial : list ascii) :
  printFullPixelMap print_dec print_hex serial =
    serial ++ list_ascii_of_string "Full pixel address map:" ++ CRLF
      ++ flat_map (fun k => map_line print_dec print_hex (Z.of_nat k)) (seq 0 768)
      ++ list_ascii_of_string "Last pixel address: 0x"
      ++ print_hex 0x3A2A ++ CRLF /\
  map_line print_dec print_hex 0 = print_dec 0 ++ list_ascii_of_string ", 0x"
                 ++ print_hex 0x342C ++ CRLF /\
  map_line print_dec print_hex 767 = print_dec 767 ++ list_ascii_of_string ", 0x"
                   ++ print_hex 0x3A2A ++ CRLF /\
  forall k, (k < 768)%nat ->
    0x342C <= FRAME_ADDR + 2 * Z.of_nat k <= 0x3A2A.
Proof.
  split; [| split; [reflexivity | split; [reflexivity |]]].
  - unfold printFullPixelMap. cbv zeta.
    change (Z.to_nat NUM_PIXELS) with 768%nat.
    change 0 with (Z.of_nat 0) at 1.
    rewrite printFullPixelMap_from_lines by lia.
    rewrite pix_addr_in_frame by (unfold NUM_PIXELS; lia).
    change (FRAME_ADDR + 2 * (NUM_PIXELS - 1)) with 0x3A2A.
    rewrite <- !app_assoc. reflexivity.
  - intros k Hk. unfold FRAME_ADDR. lia.
Qed.

End PixelMapProperties.

(** ** The cell drawn by the viewer *)

(** X20. In [draw()] of the heat-map viewer every cell of the 32 by 24
    grid reads a pixel inside the 768-element frame (0..767, not the
    0..191 of the source's comment), whatever the two invert switches
    are; two different cells never read the same pixel, every pixel is
    read by some cell, and flipping a switch mirrors the picture along
    its axis. *)
Theorem cell_index_bijection (invert_x invert_y : bool) :
  (forall x y, 0 <= x < COLS -> 0 <= y < ROWS ->
     0 <= cell_index invert_x invert_y x y < NUM_PIXELS) /\
  (forall x y x' y',
     0 <= x < COLS -> 0 <= y < ROWS -> 0 <= x' < COLS -> 0 <= y' < ROWS ->
     cell_index invert_x invert_y x y = cell_index invert_x invert_y x' y' ->
     x = x' /\ y = y') /\
  (forall i, 0 <= i < NUM_PIXELS ->
     exists x y, 0 <= x < COLS /\ 0 <= y < ROWS /\
                 cell_index invert_x invert_y x y = i) /\
  (forall x y,
     cell_index (negb invert_x) invert_y x y =
       cell_index invert_x invert_y (COLS - 1 - x) y /\
     cell_index invert_x (negb invert_y) x y =
       cell_index invert_x invert_y x (ROWS - 1 - y)).
Proof.
  unfold cell_index, COLS, ROWS, NUM_PIXELS. cbv zeta.
  split; [| split; [| split]].
  - intros x y Hx Hy. destruct invert_x, invert_y; lia.
  - intros x y x' y' Hx Hy Hx' Hy' Heq.
    destruct invert_x, invert_y; lia.
  - intros i Hi.
    pose proof (Z.div_mod i 32 ltac:(lia)) as Hdm.
    pose proof (Z.mod_pos_bound i 32 ltac:(lia)) as Hm.
    assert (Hq : 0 <= i / 32 < 24).
    { split; [apply Z.div_pos; lia | apply Z.div_lt_upper_bound; lia]. }
    exists (if invert_x then 31 - i mod 32 else i mod 32).
    exists (if invert_y then 23 - i / 32 else i / 32).
    destruct invert_x, invert_y; lia.
  - intros x y. destruct invert_x, invert_y; cbn [negb]; lia.
Qed.

Lemma cell_index_bijection_witness :
  0 <= 31 < COLS /\ 0 <= 23 < ROWS /\
  0 <= cell_index true false 31 23 < NUM_PIXELS.
Proof.
  split; [unfold COLS; lia |]. split; [unfold ROWS; lia |].
  apply (proj1 (cell_index_bijection true false)); [unfold COLS | unfold ROWS]; lia.
Defined.
